(** * econtools.metrics: OLS / IV estimation core

    A shallow embedding of [econtools/metrics/core.py] and
    [econtools/metrics/regutil.py].

    Conventions of the embedding.
    - float64 values are elements of an ordered field [F] (exact
      arithmetic).  Where numpy would go on with [inf] or [nan] (a float
      division by zero, the square root of a negative number) the model
      stops with the outcome [NonFinite], which is not a Python exception:
      it marks the places where a run leaves exact arithmetic, and the real
      run goes on from there with [inf] or [nan] in its arrays.  Rounding
      and overflow are not modelled.
    - numpy arrays carry their shape at run time: [ndarray] (two
      dimensions) and [vector] (one dimension) pair the sizes with a
      MathComp matrix, and operations on arrays of unfit shapes raise, as
      numpy does.
    - Python exceptions are the constructors of [exn]; a function that can
      raise returns a [result].
    - the caller's table lives in a store of objects ([heap]); the sample
      builder allocates or updates objects there.
    - numerical routines of numpy/scipy whose code is not part of the
      repository ([np.sqrt], [scipy.linalg.sqrtm], [numpy.linalg.eigvalsh],
      the t and F distributions) are the fields of [NumLib]. *)

Set Warnings "-all".
From HB Require Import structures.
From Stdlib Require Import String.
From mathcomp Require Import boot order algebra.

Set Implicit Arguments.
Unset Strict Implicit.
Unset Printing Implicit Defensive.

Import Order.TTheory GRing.Theory Num.Theory.

Local Open Scope string_scope.
Local Open Scope ring_scope.

(** ** Python values shared by all components *)

HB.instance Definition _ := hasDecEq.Build string String.eqb_spec.

(** The exceptions the modelled code can end with. *)
Inductive exn : Type :=
| ValueError (msg : string)
| KeyError (key : string)
| AttributeError (attr : string)
| IndexError
| TypeError
| AssertionError
| ZeroDivisionError
| LinAlgError
| UnboundLocalError (var : string)
| NonFinite.

Inductive result (A : Type) : Type :=
| Ok (a : A)
| Raise (e : exn).

Arguments Ok {A} a.
Arguments Raise {A} e.

Definition bind {A B : Type} (m : result A) (k : A -> result B) : result B :=
  match m with
  | Ok a => k a
  | Raise e => Raise e
  end.

Notation "x <<- m ;; k" := (bind m (fun x => k))
  (at level 61, m at next level, right associativity).
Notation "' p <<- m ;; k" := (bind m (fun p => k))
  (at level 61, p pattern, m at next level, right associativity).

Definition is_ok {A : Type} (m : result A) : bool :=
  if m is Ok _ then true else false.

(** A Python [dict] with string keys, in insertion order. *)
Definition dict (V : Type) : Type := seq (string * V).

Fixpoint dict_get {V : Type} (d : dict V) (key : string) : result V :=
  match d with
  | [::] => Raise (KeyError key)
  | (k, v) :: d' => if k == key then Ok v else dict_get d' key
  end.

(** Truth value of [None] / a string, and of [None] / a dict. *)
Definition truthy_str (s : option string) : bool :=
  if s is Some s' then s' != EmptyString else false.

Definition truthy_dict {V : Type} (d : option (dict V)) : bool :=
  if d is Some d' then ~~ nilp d' else false.

(** ** VCE kind validation: [_set_vce_type] (core.py 322-341) *)

Definition valid_vce : seq (option string) :=
  [:: None; Some "robust"; Some "hc1"; Some "hc2"; Some "hc3";
      Some "cluster"; Some "shac"].

Definition vce_not_supported (vce_type : option string) : string :=
  "VCE type '" ++ (if vce_type is Some s then s else "None")
               ++ "' is not supported".

Definition _set_vce_type {V : Type}
    (vce_type cluster : option string) (shac : option (dict V))
  : result (option string) :=
  if vce_type \notin valid_vce then
    Raise (ValueError (vce_not_supported vce_type))
  else
    let cluster_err :=
      truthy_str cluster
      && ((vce_type != Some "cluster") && (vce_type != None)) in
    let shac_err :=
      truthy_dict shac
      && ((vce_type != Some "shac") && (vce_type != None)) in
    if (truthy_str cluster && truthy_dict shac) || cluster_err || shac_err
    then Raise (ValueError "VCE type conflict!")
    else if truthy_str cluster then Ok (Some "cluster")
    else if truthy_dict shac then Ok (Some "shac")
    else Ok vce_type.

(** A call "fails with a configuration error". *)
Definition config_error {A : Type} (m : result A) : Prop :=
  exists msg, m = Raise (ValueError msg).

(** ** numpy arrays *)

Section Arrays.
Variable F : realFieldType.

(** A one-dimensional array, shape [(len,)]. *)
Record vector : Type := Vec { len : nat; vec_of : 'cV[F]_len }.

(** A two-dimensional array, shape [(nrows, ncols)]. *)
Record ndarray : Type :=
  Arr { nrows : nat; ncols : nat; mx_of : 'M[F]_(nrows, ncols) }.

Definition shape (A : ndarray) : nat * nat := (nrows A, ncols A).

Definition shape_error {A : Type} : result A :=
  Raise (ValueError "shapes not aligned").

(** [A.T] *)
Definition tr (A : ndarray) : ndarray := Arr (mx_of A)^T.

(** [np.dot] on two 2-d arrays. *)
Definition dot (A B : ndarray) : result ndarray :=
  match ncols A =P nrows B with
  | ReflectT e => Ok (Arr (castmx (erefl, e) (mx_of A) *m mx_of B))
  | ReflectF _ => shape_error
  end.

(** [np.dot] of a 2-d array and a 1-d array: a 1-d array. *)
Definition dotv (A : ndarray) (v : vector) : result vector :=
  match ncols A =P len v with
  | ReflectT e => Ok (Vec (castmx (erefl, e) (mx_of A) *m vec_of v))
  | ReflectF _ => shape_error
  end.

(** [np.dot] of a 1-d array and a 2-d array: a 1-d array. *)
Definition vdotm (v : vector) (A : ndarray) : result vector :=
  match len v =P nrows A with
  | ReflectT e =>
      Ok (Vec ((castmx (e, erefl) (vec_of v))^T *m mx_of A)^T)
  | ReflectF _ => shape_error
  end.

(** [np.dot] of two 1-d arrays: a scalar. *)
Definition vdot (u v : vector) : result F :=
  match len u =P len v with
  | ReflectT e => Ok (((castmx (e, erefl) (vec_of u))^T *m vec_of v) 0 0)
  | ReflectF _ => shape_error
  end.

(** Elementwise sum and difference of arrays of one shape (broadcasting
    between different shapes is not modelled: it raises). *)
Definition add (A B : ndarray) : result ndarray :=
  match nrows A =P nrows B, ncols A =P ncols B with
  | ReflectT e1, ReflectT e2 =>
      Ok (Arr (castmx (e1, e2) (mx_of A) + mx_of B))
  | _, _ => shape_error
  end.

Definition sub (A B : ndarray) : result ndarray :=
  match nrows A =P nrows B, ncols A =P ncols B with
  | ReflectT e1, ReflectT e2 =>
      Ok (Arr (castmx (e1, e2) (mx_of A) - mx_of B))
  | _, _ => shape_error
  end.

Definition vadd (u v : vector) : result vector :=
  match len u =P len v with
  | ReflectT e => Ok (Vec (castmx (e, erefl) (vec_of u) + vec_of v))
  | ReflectF _ => shape_error
  end.

Definition vsub (u v : vector) : result vector :=
  match len u =P len v with
  | ReflectT e => Ok (Vec (castmx (e, erefl) (vec_of u) - vec_of v))
  | ReflectF _ => shape_error
  end.

(** Scalar times array. *)
Definition scale (c : F) (A : ndarray) : ndarray := Arr (c *: mx_of A).
Definition vscale (c : F) (v : vector) : vector := Vec (c *: vec_of v).

(** [X.mul(v, axis=0)] / [X.multiply(v, axis=0)]: row [i] times [v[i]]. *)
Definition mul_rows (X : ndarray) (v : vector) : result ndarray :=
  match len v =P nrows X with
  | ReflectT e =>
      Ok (Arr (\matrix_(i, j) (mx_of X i j * castmx (e, erefl) (vec_of v) i 0)))
  | ReflectF _ => shape_error
  end.

(** Elementwise product of two 1-d arrays. *)
Definition vmul (u v : vector) : result vector :=
  match len u =P len v with
  | ReflectT e =>
      Ok (Vec (\col_i (castmx (e, erefl) (vec_of u) i 0 * vec_of v i 0)))
  | ReflectF _ => shape_error
  end.

(** [pd.concat((A, B), axis=1)] on frames that share their row index. *)
Definition hcat (A B : ndarray) : result ndarray :=
  match nrows A =P nrows B with
  | ReflectT e => Ok (Arr (row_mx (castmx (e, erefl) (mx_of A)) (mx_of B)))
  | ReflectF _ => shape_error
  end.

(** A 1-d array as the single column of a 2-d one, and column [j]. *)
Definition as_column (v : vector) : ndarray := Arr (vec_of v).

Definition column (A : ndarray) (j : 'I_(ncols A)) : vector :=
  Vec (col j (mx_of A)).

(** [np.ones(n)], [np.zeros(n)], [np.zeros((r, c))], [np.eye(q)]. *)
Definition ones (n : nat) : vector := Vec (const_mx 1 : 'cV[F]_n).
Definition vzeros (n : nat) : vector := Vec (0 : 'cV[F]_n).
Definition zeros (r c : nat) : ndarray := Arr (0 : 'M[F]_(r, c)).
Definition eye (q : nat) : ndarray := Arr (1%:M : 'M[F]_q).

(** [numpy.linalg.inv]: the argument must be square and invertible. *)
Definition la_inv (A : ndarray) : result ndarray :=
  match nrows A =P ncols A with
  | ReflectT e =>
      let M : 'M[F]_(ncols A) := castmx (e, erefl) (mx_of A) in
      if M \in unitmx then Ok (Arr (invmx M)) else Raise LinAlgError
  | ReflectF _ => Raise LinAlgError
  end.

(** The entries of a 1-d array, in order. *)
Definition to_seq (v : vector) : seq F :=
  [seq vec_of v i 0 | i <- enum 'I_(len v)].

Definition of_seq (s : seq F) : vector :=
  Vec (\col_(i < size s) nth 0 s i).

(** float64 division and square root on the finite range. *)
Definition fdiv (x y : F) : result F :=
  if y == 0 then Raise NonFinite else Ok (x / y).

Definition fsqrt (sqrt : F -> F) (x : F) : result F :=
  if x < 0 then Raise NonFinite else Ok (sqrt x).

(** [np.min] of a 1-d array. *)
Definition np_min (s : seq F) : result F :=
  match s with
  | [::] => Raise (ValueError "zero-size array to reduction operation")
  | x :: s' => Ok (foldr Num.min x s')
  end.

End Arrays.

(** ** External numerical routines *)

Record NumLib (F : realFieldType) : Type := {
  (** [np.sqrt] on a non-negative float *)
  np_sqrt : F -> F;
  (** [scipy.linalg.sqrtm] *)
  sqrtm : ndarray F -> result (ndarray F);
  (** [numpy.linalg.eigvalsh] *)
  eigvalsh : ndarray F -> result (seq F);
  (** [scipy.stats.t.cdf(x, df)] and [scipy.stats.t.ppf(q, df)] *)
  t_cdf : F -> int -> F;
  t_ppf : F -> int -> F;
  (** [scipy.stats.f.cdf(x, dfn, dfd)] *)
  f_cdf : F -> nat -> int -> F;
  (** [numpy.linalg.matrix_rank] *)
  matrix_rank : ndarray F -> result nat
}.

(** ** pandas objects and the object store *)

Section Model.
Variable F : realFieldType.
Variable lib : NumLib F.

(** A cell of the caller's table: [None] is a missing value. *)
Definition cell : Type := option F.

(** A value of the [shac] dict. *)
Inductive pyval : Type := PStr (s : string) | PNum (x : F).

(** A table with cells that may be missing (the caller's dataset and what
    is cut out of it). *)
Record frame : Type := Frame { rows : nat; cols : dict (seq cell) }.

(** A named column with cells that may be missing. *)
Record series : Type := RawSeries { name : string; cells : seq cell }.

(** A float64 DataFrame: column labels and values. *)
Record DataFrame : Type := DF { columns : seq string; values : ndarray F }.

(** The outcome: a float64 Series, or the scalar that [squeeze] turns a
    one-row Series into. *)
Inductive yobj : Type := YScalar (c : F) | YSeries (v : vector F).

Inductive obj : Type :=
| ORaw (t : frame)
| ORawSeries (s : series)
| ORawScalar (nm : string) (c : cell)
| OMask (bits : seq bool)
| ODataFrame (d : DataFrame)
| OY (y : yobj).

Definition loc : Type := nat.
Definition heap : Type := seq obj.

(** Computations on the store; what was written stays written when an
    exception is raised. *)
Definition H (A : Type) : Type := heap -> result A * heap.

Definition ret {A : Type} (a : A) : H A := fun h => (Ok a, h).
Definition hraise {A : Type} (e : exn) : H A := fun h => (Raise e, h).
Definition lift {A : Type} (m : result A) : H A := fun h => (m, h).

Definition hbind {A B : Type} (m : H A) (k : A -> H B) : H B :=
  fun h => match m h with
           | (Ok a, h') => k a h'
           | (Raise e, h') => (Raise e, h')
           end.

(** A new object gets the next free location. *)
Definition alloc (o : obj) : H loc := fun h => (Ok (size h), rcons h o).

(** References are produced by [alloc] only, so they are never dangling;
    [load] is total for simplicity. *)
Definition load (l : loc) : H obj := fun h => (Ok (nth (OMask [::]) h l), h).

(** An update in place. *)
Definition store (l : loc) (o : obj) : H unit :=
  fun h => (Ok tt, set_nth (OMask [::]) h l o).

Notation "x <~ m ;; k" := (hbind m (fun x => k))
  (at level 61, m at next level, right associativity).

Fixpoint hmapM {A B : Type} (f : A -> H B) (s : seq A) : H (seq B) :=
  match s with
  | [::] => ret [::]
  | a :: s' => b <~ f a ;; bs <~ hmapM f s' ;; ret (b :: bs)
  end.

Fixpoint mapM {A B : Type} (f : A -> result B) (s : seq A) : result (seq B) :=
  match s with
  | [::] => Ok [::]
  | a :: s' => b <<- f a ;; bs <<- mapM f s' ;; Ok (b :: bs)
  end.

Definition load_frame (l : loc) : H frame :=
  o <~ load l ;; if o is ORaw t then ret t else hraise TypeError.

Definition load_mask (l : loc) : H (seq bool) :=
  o <~ load l ;; if o is OMask m then ret m else hraise TypeError.

Definition load_series (l : loc) : H series :=
  o <~ load l ;; if o is ORawSeries s then ret s else hraise TypeError.

Definition load_DataFrame (l : loc) : H DataFrame :=
  o <~ load l ;; if o is ODataFrame d then ret d else hraise TypeError.

Definition load_y (l : loc) : H yobj :=
  o <~ load l ;; if o is OY y then ret y else hraise TypeError.

(** ** Call arguments and the worker object *)

(** [Regression] and [IVReg], the two subclasses of [RegBase]. *)
Inductive klass : Type := Regression | IVReg.

(** The arguments of [reg] / [ivreg]; [z_name], [w_name], [iv_method] and
    [_kappa_debug] are read by [IVReg] only. *)
Record call : Type := Call {
  df : loc;
  y_name : string;
  x_name : seq string;
  z_name : seq string;
  w_name : seq string;
  a_name : option string;
  nosingles : bool;
  iv_method : string;
  _kappa_debug : option F;
  vce_type : option string;
  cluster : option string;
  shac : option (dict pyval);
  addcons : bool;
  nocons : bool;
  awt_name : option string
}.

(** [unpack_spatialargs] (regutil.py 57-64). *)
Definition unpack_spatialargs (argdict : option (dict pyval))
  : result (option pyval * option pyval * option pyval * option pyval) :=
  match argdict with
  | None => Ok (None, None, None, None)
  | Some d =>
      spatial_x <<- dict_get d "x" ;;
      spatial_y <<- dict_get d "y" ;;
      spatial_band <<- dict_get d "band" ;;
      spatial_kern <<- dict_get d "kern" ;;
      Ok (Some spatial_x, Some spatial_y, Some spatial_band, Some spatial_kern)
  end.

(** Modelled from the spec: [unpack_shac_args], which core.py imports from
    regutil.py (line 12) and calls in [RegBase.__init__] (line 143), is
    defined nowhere in the sources; regutil.py holds [unpack_spatialargs]
    only.  The specification has the spatial configuration as "a record
    {x_column, y_column, kernel, bandwidth}", read once at call entry into
    the coordinates' column names, the bandwidth and the kernel: that is
    what [unpack_spatialargs] does with the keys ['x'], ['y'], ['band'] and
    ['kern'], and the missing function is taken to be it. *)
Definition unpack_shac_args (argdict : option (dict pyval))
  : result (option pyval * option pyval * option pyval * option pyval) :=
  unpack_spatialargs argdict.

(** The worker after [RegBase.__init__] (core.py 123-150, 393-401). *)
Record init : Type := Init {
  cls : klass;
  kw : call;
  self_vce_type : option string;
  shac_x : option pyval;
  shac_y : option pyval;
  shac_band : option pyval;
  shac_kern : option pyval
}.

Definition RegBase_init (c : klass) (k : call) : result init :=
  v <<- _set_vce_type (vce_type k) (cluster k) (shac k) ;;
  ' (sx, sy, sband, skern) <<- unpack_shac_args (shac k) ;;
  Ok (Init c k v sx sy sband skern).

Definition sample_cols_labels (c : klass) : seq string :=
  [:: "y_name"; "x_name"; "a_name"; "cluster"; "shac_x"; "shac_y"; "awt_name"]
  ++ (if c is IVReg then [:: "z_name"; "w_name"] else [::]).

Definition sample_store_labels (c : klass) : seq string :=
  [:: "y"; "x"; "A"; "cluster_id"; "shac_x"; "shac_y"; "AWT"]
  ++ (if c is IVReg then [:: "z"; "w"] else [::]).

Definition vars_in_reg (c : klass) : seq string :=
  [:: "y"; "x"] ++ (if c is IVReg then [:: "z"; "w"] else [::]).

Definition add_constant_to (c : klass) : string :=
  if c is IVReg then "w" else "x".

(** What an entry of [sample_cols] can be: [None], one label, a list of
    labels, or a label that is not a string (no table has such a column). *)
Inductive colspec : Type :=
| NoCol
| Col (s : string)
| Cols (l : seq string)
| BadCol.

Definition col_of_opt (s : option string) : colspec :=
  if s is Some s' then Col s' else NoCol.

Definition col_of_pyval (v : option pyval) : colspec :=
  match v with
  | None => NoCol
  | Some (PStr s) => Col s
  | Some (PNum _) => BadCol
  end.

(** [self.__dict__[label]] for the labels of [sample_cols_labels]. *)
Definition name_attr (self : init) (label : string) : colspec :=
  if label == "y_name" then Col (y_name (kw self))
  else if label == "x_name" then Cols (x_name (kw self))
  else if label == "a_name" then col_of_opt (a_name (kw self))
  else if label == "cluster" then col_of_opt (cluster (kw self))
  else if label == "shac_x" then col_of_pyval (shac_x self)
  else if label == "shac_y" then col_of_pyval (shac_y self)
  else if label == "awt_name" then col_of_opt (awt_name (kw self))
  else if label == "z_name" then Cols (z_name (kw self))
  else if label == "w_name" then Cols (w_name (kw self))
  else NoCol.

(** ** Sample Builder: regutil.py *)

(** [varlist] of [flag_sample]: the labels of every entry that is not
    [None], through [force_list]. *)
Fixpoint varlist (args : seq colspec) : result (seq string) :=
  match args with
  | [::] => Ok [::]
  | var :: args' =>
      match var with
      | NoCol => varlist args'
      | Col s => l <<- varlist args' ;; Ok (s :: l)
      | Cols ss => l <<- varlist args' ;; Ok (cat ss l)
      | BadCol => Raise (KeyError "label")
      end
  end.

(** [df[names]]: the columns, [KeyError] on a label the table lacks. *)
Definition getitem_cols (t : frame) (names : seq string)
  : result (seq (seq cell)) :=
  mapM (dict_get (cols t)) names.

(** [flag_sample] (regutil.py 18-24): a row is in the sample when none of
    the listed columns is missing there. *)
Definition flag_sample (df : loc) (args : seq colspec) : H loc :=
  t <~ load_frame df ;;
  names <~ lift (varlist args) ;;
  cs <~ lift (getitem_cols t names) ;;
  alloc (OMask [seq all (fun c : seq cell => isSome (nth None c i)) cs
               | i <- iota 0 (rows t)]).

(** [flag_nonsingletons] (regutil.py 67-72): the row's [avar] group has
    more than one row in the sample. *)
Definition flag_nonsingletons (df : loc) (avar : string) (sample : loc)
  : H loc :=
  t <~ load_frame df ;;
  smp <~ load_mask sample ;;
  a <~ lift (dict_get (cols t) avar) ;;
  let counts := fun key : cell => count_mem key (mask smp a) in
  alloc (OMask [seq (if key is Some _ then (1 < counts key)%N else false)
               | key <- a]).

(** [sample &= other]: an update of the mask object in place. *)
Definition iand (sample other : loc) : H unit :=
  m1 <~ load_mask sample ;;
  m2 <~ load_mask other ;;
  store sample (OMask [seq p.1 && p.2 | p <- zip m1 m2]).

(** [df.loc[sample, name].copy().reset_index(drop=True)]: the selection,
    its copy and the re-indexed copy are three new objects. *)
Definition loc_copy_reset (df sample : loc) (nm : colspec)
  : H (option loc) :=
  match nm with
  | NoCol => ret None
  | BadCol => hraise (KeyError "label")
  | Col s =>
      t <~ load_frame df ;;
      smp <~ load_mask sample ;;
      c <~ lift (dict_get (cols t) s) ;;
      l1 <~ alloc (ORawSeries (RawSeries s (mask smp c))) ;;
      o1 <~ load l1 ;;
      l2 <~ alloc o1 ;;
      o2 <~ load l2 ;;
      l3 <~ alloc o2 ;;
      ret (Some l3)
  | Cols ss =>
      t <~ load_frame df ;;
      smp <~ load_mask sample ;;
      cs <~ lift (getitem_cols t ss) ;;
      l1 <~ alloc (ORaw (Frame (count id smp)
                               (zip ss [seq mask smp c | c <- cs]))) ;;
      o1 <~ load l1 ;;
      l2 <~ alloc o1 ;;
      o2 <~ load l2 ;;
      l3 <~ alloc o2 ;;
      ret (Some l3)
  end.

(** [set_sample] / [_set_samp_core] (regutil.py 27-35). *)
Definition set_sample (df sample : loc) (names : seq colspec)
  : H (seq (option loc)) :=
  hmapM (loc_copy_reset df sample) names.

(** ** Sample Builder: [RegBase.set_sample] (core.py 161-202) *)

(** The data attributes of [self], by name: each is [None] or a reference
    to an object of the store. *)
Definition attrs : Type := dict (option loc).

Definition setattr (d : attrs) (k : string) (v : option loc) : attrs :=
  (k, v) :: [seq p <- d | p.1 != k].

Definition getattr (d : attrs) (k : string) : H (option loc) :=
  lift (dict_get d k).

(** Calling a method on an attribute that holds [None]. *)
Definition deref (a : option loc) (meth : string) : H loc :=
  if a is Some l then ret l else hraise (AttributeError meth).

Fixpoint hfold {A S : Type} (f : S -> A -> H S) (s0 : S) (l : seq A) : H S :=
  match l with
  | [::] => ret s0
  | a :: l' => s1 <~ f s0 a ;; hfold f s1 l'
  end.

(** Modelled from the spec: [econtools.util.force_df], one of the "generic
    list/dataframe coercion helpers"; its code is not in the source files.
    A table is handed back as it is, a Series becomes a one-column table. *)
Definition force_df (a : option loc) : H (option loc) :=
  l <~ deref a "force_df" ;;
  o <~ load l ;;
  match o with
  | ORawSeries s =>
      l' <~ alloc (ORaw (Frame (size (cells s)) [:: (name s, cells s)])) ;;
      ret (Some l')
  | _ => ret (Some l)
  end.

(** [Series.squeeze()]: a Series of one row becomes a scalar. *)
Definition squeeze (a : option loc) : H (option loc) :=
  l <~ deref a "squeeze" ;;
  s <~ load_series l ;;
  l' <~ alloc (if cells s is [:: c] then ORawScalar (name s) c
              else ORawSeries s) ;;
  ret (Some l').

Definition cells_float (cs : seq cell) : result (seq F) :=
  mapM (fun c : cell => if c is Some v then Ok v else Raise NonFinite) cs.

Definition frame_values (t : frame) : ndarray F :=
  Arr (\matrix_(i < rows t, j < size (cols t))
         odflt 0 (nth None (nth [::] (unzip2 (cols t)) j) i)).

Definition frame_notnull (t : frame) : bool :=
  all (fun c : string * seq cell =>
         (size c.2 == rows t) && all isSome c.2) (cols t).

(** [.astype(np.float64)]; a missing cell would become [nan]. *)
Definition astype_float64 (o : obj) : result obj :=
  match o with
  | ORaw t =>
      if frame_notnull t
      then Ok (ODataFrame (DF (unzip1 (cols t)) (frame_values t)))
      else Raise NonFinite
  | ORawSeries s =>
      v <<- cells_float (cells s) ;; Ok (OY (YSeries (of_seq v)))
  | ORawScalar _ c =>
      if c is Some v then Ok (OY (YScalar v)) else Raise NonFinite
  | ODataFrame _ | OY _ => Ok o
  | OMask _ => Raise TypeError
  end.

Definition var_astype (d : attrs) (var : string) : H attrs :=
  a <~ getattr d var ;;
  l <~ deref a "astype" ;;
  o <~ load l ;;
  o' <~ lift (astype_float64 o) ;;
  l' <~ alloc o' ;;
  ret (setattr d var (Some l')).

(** Row [i] minus the mean of the rows of its group: what
    [df - force_df(A).join(df.groupby(A).mean(), on=group_name)] holds. *)
Definition group_demean (keys : seq cell) (n k : nat) (M : 'M[F]_(n, k))
  : 'M[F]_(n, k) :=
  \matrix_(i, j)
     (M i j
      - (\sum_(i' < n | nth None keys i' == nth None keys i) M i' j)
        / (count_mem (nth None keys i) keys)%:R).

Definition keys_ok (keys : seq cell) (n : nat) : bool :=
  (size keys == n) && all isSome keys.

Definition df_empty (d : DataFrame) : bool :=
  (nrows (values d) == 0%N) || (ncols (values d) == 0%N).

(** [_demean] (core.py 343-356): [None] and empty tables pass through as
    the same object; a group key that is missing would give [nan] means. *)
Definition _demean (A : option loc) (df : option loc) : H (option loc) :=
  match df with
  | None => ret None
  | Some l =>
      o <~ load l ;;
      match o with
      | ODataFrame d =>
          if df_empty d then ret (Some l)
          else
            la <~ deref A "name" ;;
            a <~ load_series la ;;
            if keys_ok (cells a) (nrows (values d)) then
              l' <~ alloc (ODataFrame
                     (DF (columns d)
                         (Arr (group_demean (cells a) (mx_of (values d)))))) ;;
              ret (Some l')
            else hraise NonFinite
      | OY (YSeries v) =>
          if len v == 0%N then ret (Some l)
          else
            la <~ deref A "name" ;;
            a <~ load_series la ;;
            if keys_ok (cells a) (len v) then
              l' <~ alloc (OY (YSeries
                                 (Vec (group_demean (cells a) (vec_of v))))) ;;
              ret (Some l')
            else hraise NonFinite
      | OY (YScalar _) => hraise (AttributeError "empty")
      | _ => hraise TypeError
      end
  end.

(** [_demean_sample] (core.py 194-197). *)
Definition _demean_sample (c : klass) (d : attrs) : H attrs :=
  y <~ getattr d "y" ;;
  ly <~ deref y "copy" ;;
  oy <~ load ly ;;
  y_raw <~ alloc oy ;;
  let d := setattr d "y_raw" (Some y_raw) in
  A <~ getattr d "A" ;;
  hfold (fun d var =>
           v <~ getattr d var ;;
           v' <~ _demean A v ;;
           ret (setattr d var v'))
        d (vars_in_reg c).

(** [d[label] = v]: every column under [label] is overwritten, and the
    column is appended when there is none. *)
Definition setitem (d : DataFrame) (label : string) (v : vector F)
  : result DataFrame :=
  match len v =P nrows (values d) with
  | ReflectT e =>
      let cv := castmx (e, erefl) (vec_of v) in
      if label \in columns d then
        Ok (DF (columns d)
               (Arr (\matrix_(i, j)
                       if nth EmptyString (columns d) j == label
                       then cv i 0 else mx_of (values d) i j)))
      else
        Ok (DF (rcons (columns d) label)
               (Arr (row_mx (mx_of (values d)) cv)))
  | ReflectF _ => Raise (ValueError "Length of values does not match")
  end.

(** The [elif self.addcons:] branch (core.py 181-188). *)
Definition add_constant (c : klass) (d : attrs) : H attrs :=
  y <~ getattr d "y" ;;
  ly <~ deref y "shape" ;;
  yo <~ load_y ly ;;
  match yo with
  | YScalar _ => hraise IndexError
  | YSeries yv =>
      let _cons := ones F (len yv) in
      x <~ getattr d (add_constant_to c) ;;
      lx <~ deref x "empty" ;;
      xd <~ load_DataFrame lx ;;
      if df_empty xd then
        lx' <~ alloc (ODataFrame (DF [:: "_cons"] (as_column _cons))) ;;
        ret (setattr d (add_constant_to c) (Some lx'))
      else
        xd' <~ lift (setitem xd "_cons" _cons) ;;
        _ <~ store lx (ODataFrame xd') ;;
        ret (setattr d (add_constant_to c) (Some lx))
  end.

(** [_calc_aweights] (core.py 358-361). *)
Definition _calc_aweights (aw : series) : result (vector F) :=
  ws <<- cells_float (cells aw) ;;
  scaled_total <<- fdiv (\sum_(v <- ws) v) (size ws)%:R ;;
  row_weights <<-
    mapM (fun v => q <<- fdiv v scaled_total ;; fsqrt (np_sqrt lib) q) ws ;;
  Ok (of_seq row_weights).

(** [_weight_sample] (core.py 199-202). *)
Definition _weight_sample (c : klass) (d : attrs) : H attrs :=
  awt <~ getattr d "AWT" ;;
  law <~ deref awt "sum" ;;
  aw <~ load_series law ;;
  row_wt <~ lift (_calc_aweights aw) ;;
  hfold (fun d var =>
           v <~ getattr d var ;;
           l <~ deref v "multiply" ;;
           o <~ load l ;;
           o' <~ match o with
                 | ODataFrame xd =>
                     m <~ lift (mul_rows (values xd) row_wt) ;;
                     ret (ODataFrame (DF (columns xd) m))
                 | OY (YSeries yv) =>
                     m <~ lift (vmul yv row_wt) ;; ret (OY (YSeries m))
                 | OY (YScalar _) => hraise (AttributeError "multiply")
                 | _ => hraise TypeError
                 end ;;
           l' <~ alloc o' ;;
           ret (setattr d var (Some l')))
        d (vars_in_reg c).

(** [pd.Series] of floats with an index of labels. *)
Record labelled : Type := Lab { index : seq string; data : vector F }.

(** The attributes of a [Results] object (core.py 523-559); an attribute
    that was never set is [None], and reading it is an [AttributeError].
    [_r2] and [_r2_a] may hold [nan], the inner [None]. *)
Record Results : Type := Res {
  beta : labelled;
  xpx_inv : ndarray F;
  _sst : option F;
  _r2 : option cell;
  _r2_a : option cell;
  res_iv_method : option string;
  kappa : option F;
  vce : option DataFrame;
  yhat : option (vector F);
  resid : option (vector F);
  res_sample : option (seq bool);
  res_g : option nat;
  res_N : option nat;
  res_K : option nat;
  df_t : option int;
  _df_r : option int;
  _vce_correct : option F;
  _nocons : option bool;
  se : option labelled;
  t_stat : option labelled;
  pt : option labelled;
  ci_lo : option labelled;
  ci_hi : option labelled
}.

(** The worker once the sample is built: its data attributes, read from
    the store (later stages build new arrays and leave these alone), and
    the attributes the later stages set. *)
Record worker : Type := Worker {
  ini : init;
  self_sample : seq bool;
  self_y : yobj;
  self_x : DataFrame;
  self_z : option DataFrame;
  self_w : option DataFrame;
  self_A : option series;
  self_cluster_id : option series;
  self_shac_x : option series;
  self_shac_y : option series;
  self_AWT : option series;
  self_y_raw : option yobj;
  self_Xhat : option DataFrame;
  self_Xtrue : option DataFrame;
  self_results : option Results
}.

Definition attr_or_none (d : attrs) (k : string) : option loc :=
  if dict_get d k is Ok a then a else None.

Definition load_opt {A : Type} (ld : loc -> H A) (a : option loc)
  : H (option A) :=
  if a is Some l then (v <~ ld l ;; ret (Some v)) else ret None.

Definition read_worker (self : init) (sample : loc) (d : attrs) : H worker :=
  smp <~ load_mask sample ;;
  y <~ getattr d "y" ;;
  ly <~ deref y "y" ;;
  yo <~ load_y ly ;;
  x <~ getattr d "x" ;;
  lx <~ deref x "x" ;;
  xd <~ load_DataFrame lx ;;
  zd <~ load_opt load_DataFrame (attr_or_none d "z") ;;
  wd <~ load_opt load_DataFrame (attr_or_none d "w") ;;
  a <~ load_opt load_series (attr_or_none d "A") ;;
  cl <~ load_opt load_series (attr_or_none d "cluster_id") ;;
  sx <~ load_opt load_series (attr_or_none d "shac_x") ;;
  sy <~ load_opt load_series (attr_or_none d "shac_y") ;;
  aw <~ load_opt load_series (attr_or_none d "AWT") ;;
  yr <~ load_opt load_y (attr_or_none d "y_raw") ;;
  ret (Worker self smp yo xd zd wd a cl sx sy aw yr None None None).

Definition RegBase_set_sample (self : init) : H worker :=
  let k := kw self in
  let sample_cols := [seq name_attr self lbl | lbl <- sample_cols_labels (cls self)] in
  sample <~ flag_sample (df k) sample_cols ;;
  _ <~ (if nosingles k && truthy_str (a_name k) then
          ns <~ flag_nonsingletons (df k) (odflt EmptyString (a_name k)) sample ;;
          iand sample ns
        else ret tt) ;;
  sample_vars <~ set_sample (df k) sample sample_cols ;;
  let d : attrs := zip (sample_store_labels (cls self)) sample_vars in
  x <~ getattr d "x" ;;
  x' <~ force_df x ;;
  let d := setattr d "x" x' in
  y <~ getattr d "y" ;;
  y' <~ squeeze y ;;
  let d := setattr d "y" y' in
  (* Force regression variables to float64 *)
  d <~ hfold var_astype d (vars_in_reg (cls self)) ;;
  (* Demean or add constant *)
  d <~ (if a_name k is Some _ then _demean_sample (cls self) d
        else if addcons k then add_constant (cls self) d
        else ret d) ;;
  (* Re-weight sample *)
  awt <~ getattr d "AWT" ;;
  d <~ (if awt is Some _ then _weight_sample (cls self) d else ret d) ;;
  read_worker self sample d.

(** ** Results *)

(** [Results(beta=beta, xpx_inv=xpx_inv)] *)
Definition new_Results (b : labelled) (xi : ndarray F) : Results :=
  Res b xi None None None None None None None None None None None None
      None None None None None None None None None.

(** The [sst] setter (core.py 609-612); [np.mean] of nothing is [nan], and
    a numpy scalar, which is what [y - np.mean(y)] is when [y] is one, has
    no [dot] method. *)
Definition sst_of (y : yobj) : result F :=
  match y with
  | YScalar c => Raise (AttributeError "dot")
  | YSeries v =>
      m <<- fdiv (\sum_i vec_of v i 0) (len v)%:R ;;
      let y_demeaned := vec_of v - const_mx m in
      Ok ((y_demeaned^T *m y_demeaned) 0 0)
  end.

Definition set_sst (r : Results) (s : F) : Results :=
  Res (beta r) (xpx_inv r) (Some s) (_r2 r) (_r2_a r) (res_iv_method r)
      (kappa r) (vce r) (yhat r) (resid r) (res_sample r) (res_g r)
      (res_N r) (res_K r) (df_t r) (_df_r r) (_vce_correct r) (_nocons r)
      (se r) (t_stat r) (pt r) (ci_lo r) (ci_hi r).

Definition set_r2_nan (r : Results) : Results :=
  Res (beta r) (xpx_inv r) (_sst r) (Some None) (Some None)
      (res_iv_method r) (kappa r) (vce r) (yhat r) (resid r) (res_sample r)
      (res_g r) (res_N r) (res_K r) (df_t r) (_df_r r) (_vce_correct r)
      (_nocons r) (se r) (t_stat r) (pt r) (ci_lo r) (ci_hi r).

Definition add_iv_method (r : Results) (m : string) : Results :=
  Res (beta r) (xpx_inv r) (_sst r) (_r2 r) (_r2_a r) (Some m)
      (kappa r) (vce r) (yhat r) (resid r) (res_sample r) (res_g r)
      (res_N r) (res_K r) (df_t r) (_df_r r) (_vce_correct r) (_nocons r)
      (se r) (t_stat r) (pt r) (ci_lo r) (ci_hi r).

Definition add_kappa (r : Results) (k : F) : Results :=
  Res (beta r) (xpx_inv r) (_sst r) (_r2 r) (_r2_a r) (res_iv_method r)
      (Some k) (vce r) (yhat r) (resid r) (res_sample r) (res_g r)
      (res_N r) (res_K r) (df_t r) (_df_r r) (_vce_correct r) (_nocons r)
      (se r) (t_stat r) (pt r) (ci_lo r) (ci_hi r).

(** The four [_add_stat] calls that end [get_vce]. *)
Definition add_vce_stats (r : Results) (v : DataFrame) (yh rs : vector F)
    (smp : seq bool) : Results :=
  Res (beta r) (xpx_inv r) (_sst r) (_r2 r) (_r2_a r) (res_iv_method r)
      (kappa r) (Some v) (Some yh) (Some rs) (Some smp) (res_g r)
      (res_N r) (res_K r) (df_t r) (_df_r r) (_vce_correct r) (_nocons r)
      (se r) (t_stat r) (pt r) (ci_lo r) (ci_hi r).

Definition set_vce (r : Results) (v : DataFrame) : Results :=
  Res (beta r) (xpx_inv r) (_sst r) (_r2 r) (_r2_a r) (res_iv_method r)
      (kappa r) (Some v) (yhat r) (resid r) (res_sample r) (res_g r)
      (res_N r) (res_K r) (df_t r) (_df_r r) (_vce_correct r) (_nocons r)
      (se r) (t_stat r) (pt r) (ci_lo r) (ci_hi r).

Definition set_nocons (r : Results) (b : bool) : Results :=
  Res (beta r) (xpx_inv r) (_sst r) (_r2 r) (_r2_a r) (res_iv_method r)
      (kappa r) (vce r) (yhat r) (resid r) (res_sample r) (res_g r)
      (res_N r) (res_K r) (df_t r) (_df_r r) (_vce_correct r) (Some b)
      (se r) (t_stat r) (pt r) (ci_lo r) (ci_hi r).

Definition add_g (r : Results) (g : nat) : Results :=
  Res (beta r) (xpx_inv r) (_sst r) (_r2 r) (_r2_a r) (res_iv_method r)
      (kappa r) (vce r) (yhat r) (resid r) (res_sample r) (Some g)
      (res_N r) (res_K r) (df_t r) (_df_r r) (_vce_correct r) (_nocons r)
      (se r) (t_stat r) (pt r) (ci_lo r) (ci_hi r).

(** The assignments that end [set_dof], the scaling of [vce] apart. *)
Definition add_dof_stats (r : Results) (n k : nat) (df : int) (c : F)
  : Results :=
  Res (beta r) (xpx_inv r) (_sst r) (_r2 r) (_r2_a r) (res_iv_method r)
      (kappa r) (vce r) (yhat r) (resid r) (res_sample r) (res_g r)
      (Some n) (Some k) (Some df) (Some df) (Some c) (_nocons r)
      (se r) (t_stat r) (pt r) (ci_lo r) (ci_hi r).

Definition add_inference (r : Results) (s t p lo hi : labelled) : Results :=
  Res (beta r) (xpx_inv r) (_sst r) (_r2 r) (_r2_a r) (res_iv_method r)
      (kappa r) (vce r) (yhat r) (resid r) (res_sample r) (res_g r)
      (res_N r) (res_K r) (df_t r) (_df_r r) (_vce_correct r) (_nocons r)
      (Some s) (Some t) (Some p) (Some lo) (Some hi).

(** Reading an attribute that may not be there. *)
Definition attr {A : Type} (a : option A) (nm : string) : result A :=
  if a is Some v then Ok v else Raise (AttributeError nm).

Definition with_results (self : worker) (r : Results) : worker :=
  Worker (ini self) (self_sample self) (self_y self) (self_x self)
         (self_z self) (self_w self) (self_A self) (self_cluster_id self)
         (self_shac_x self) (self_shac_y self) (self_AWT self)
         (self_y_raw self) (self_Xhat self) (self_Xtrue self) (Some r).

Definition with_X (self : worker) (Xhat Xtrue : DataFrame) : worker :=
  Worker (ini self) (self_sample self) (self_y self) (self_x self)
         (self_z self) (self_w self) (self_A self) (self_cluster_id self)
         (self_shac_x self) (self_shac_y self) (self_AWT self)
         (self_y_raw self) (Some Xhat) (Some Xtrue) (self_results self).

(** ** Linear Solver: [fitguts] (core.py 508-519) *)

Definition fitguts (y : yobj) (x : DataFrame)
  : result (labelled * ndarray F) :=
  match y with
  | YScalar _ => Raise AssertionError
  | YSeries yv =>
      xpx <<- dot (tr (values x)) (values x) ;;
      xpx_inv <<- la_inv xpx ;;
      xpy <<- dotv (tr (values x)) yv ;;
      b <<- dotv xpx_inv xpy ;;
      Ok (Lab (columns x) b, xpx_inv)
  end.

(** [Regression.estimate] (core.py 385-388). *)
Definition Regression_estimate (self : worker) : result worker :=
  ' (b, xi) <<- fitguts (self_y self) (self_x self) ;;
  s <<- sst_of (self_y self) ;;
  Ok (with_results self (set_sst (new_Results b xi) s)).

(** ** IV Estimator (core.py 391-505) *)

Fixpoint foldM {A S : Type} (f : S -> A -> result S) (s0 : S) (l : seq A)
  : result S :=
  match l with
  | [::] => Ok s0
  | a :: l' => s1 <<- f s0 a ;; foldM f s1 l'
  end.

(** Column number [j] of a table, as a 1-d array. *)
Definition nth_col (d : DataFrame) (j : nat) : vector F :=
  Vec (\col_i (if insub j is Some j' then mx_of (values d) i j' else 0)).

(** [x[an_x]] as the outcome of a first stage: the column under the label;
    when several columns carry the label the selection is a table, which
    [fitguts] refuses by its first assertion. *)
Definition x_column (x : DataFrame) (an_x : string) : result (vector F) :=
  if (count_mem an_x (columns x) == 1)%N
  then Ok (nth_col x (seq.index an_x (columns x)))
  else Raise AssertionError.

(** [pd.concat((a, b), axis=1)] *)
Definition concat1 (a b : DataFrame) : result DataFrame :=
  v <<- hcat (values a) (values b) ;;
  Ok (DF (cat (columns a) (columns b)) v).

(** [IVReg._first_stage] (core.py 430-438). *)
Definition _first_stage (x w z : DataFrame)
  : result (DataFrame * DataFrame) :=
  X <<- concat1 x w ;;
  let Xhat := X in
  Z <<- concat1 z w ;;
  Xhat <<- foldM (fun Xhat an_x =>
                    this_x <<- x_column x an_x ;;
                    ' (pi_hat, _) <<- fitguts (YSeries this_x) Z ;;
                    fitted <<- dotv (values Z) (data pi_hat) ;;
                    setitem Xhat an_x fitted)
                 Xhat (columns x) ;;
  Ok (Xhat, X).

(** [IVReg._liml_kappa] (core.py 471-490). *)
Definition _liml_kappa (y : yobj) (x w Z : DataFrame)
  : result (F * ndarray F) :=
  match y with
  | YScalar _ => Raise TypeError
  | YSeries yv =>
      Y <<- hcat (as_column yv) (values x) ;;
      YY <<- dot (tr Y) Y ;;
      YZ <<- dot (tr Y) (values Z) ;;
      ZZ <<- dot (tr (values Z)) (values Z) ;;
      ZZ_inv <<- la_inv ZZ ;;
      YZZ <<- dot YZ ZZ_inv ;;
      P <<- dot YZZ (tr YZ) ;;
      D <<- sub YY P ;;
      S <<- sqrtm lib D ;;
      bread <<- la_inv S ;;
      meat <<- (if ~~ df_empty w then
                  Yw <<- dot (tr Y) (values w) ;;
                  ww <<- dot (tr (values w)) (values w) ;;
                  ww_inv <<- la_inv ww ;;
                  Yww <<- dot Yw ww_inv ;;
                  Pw <<- dot Yww (tr Yw) ;;
                  sub YY Pw
                else Ok YY) ;;
      bm <<- dot bread meat ;;
      bmb <<- dot bm bread ;;
      eigs <<- eigvalsh lib bmb ;;
      kappa <<- np_min eigs ;;
      Ok (kappa, ZZ_inv)
  end.

(** [IVReg._liml] (core.py 440-469); [y] is a Series here, since
    [_liml_kappa] has returned. *)
Definition _liml (y : yobj) (x z w : DataFrame) (_kappa_debug : option F)
    (vce_type : option string)
  : result (labelled * ndarray F * DataFrame * DataFrame * F) :=
  Z <<- concat1 z w ;;
  ' (kappa, ZZ_inv) <<- _liml_kappa y x w Z ;;
  X <<- concat1 x w ;;
  yv <<- (if y is YSeries yv then Ok yv else Raise TypeError) ;;
  (* Solve system *)
  XX <<- dot (tr (values X)) (values X) ;;
  XZ <<- dot (tr (values X)) (values Z) ;;
  Xy <<- dotv (tr (values X)) yv ;;
  Zy <<- dotv (tr (values Z)) yv ;;
  (* When kappa = 1 is 2sls, kappa = 0 is OLS *)
  let kappa :=
    if _kappa_debug is Some k then k
    (* If exactly identified, same as 2sls, make it so *)
    else if ncols (values x) == ncols (values z) then 1
    else kappa in
  XZZ <<- dot XZ ZZ_inv ;;
  XZZX <<- dot XZZ (tr XZ) ;;
  M <<- add (scale (1 - kappa) XX) (scale kappa XZZX) ;;
  xpx_inv <<- la_inv M ;;
  XZZy <<- dotv XZZ Zy ;;
  xpy <<- vadd (vscale (1 - kappa) Xy) (vscale kappa XZZy) ;;
  b <<- dotv xpx_inv xpy ;;
  let beta := Lab (columns X) b in
  (* LIML uses non-standard 'bread' in the sandwich estimator *)
  se_xpx_inv <<- (if vce_type is None then Ok xpx_inv
                  else
                    t <<- dot xpx_inv XZ ;;
                    dot t ZZ_inv) ;;
  Ok (beta, se_xpx_inv, Z, X, kappa).

(** [IVReg.estimate] (core.py 403-428).  In the last branch the message
    of the [ValueError] is built from [self.method], an attribute that
    [IVReg] objects made by [ivreg] do not have. *)
Definition IVReg_estimate (self : worker) : result worker :=
  let k := kw (ini self) in
  let y := self_y self in
  let x := self_x self in
  w <<- attr (self_w self) "w" ;;
  z <<- attr (self_z self) "z" ;;
  ' (self, b, xi, kap) <<-
    (if iv_method k == "2sls" then
       ' (Xhat, Xtrue) <<- _first_stage x w z ;;
       ' (b, xi) <<- fitguts y Xhat ;;
       Ok (with_X self Xhat Xtrue, b, xi, None)
     else if iv_method k == "liml" then
       ' (b, xi, Xhat, Xtrue, kappa) <<-
         _liml y x z w (_kappa_debug k) (self_vce_type (ini self)) ;;
       Ok (with_X self Xhat Xtrue, b, xi, Some kappa)
     else Raise (AttributeError "method")) ;;
  s <<- sst_of y ;;
  let r := set_sst (new_Results b xi) s in
  let r := set_r2_nan r in
  let r := add_iv_method r (iv_method k) in
  let r := if iv_method k == "liml"
           then (if kap is Some kappa then add_kappa r kappa else r)
           else r in
  Ok (with_results self r).

(** [self.estimate()], by the class of [self]. *)
Definition estimate (self : worker) : result worker :=
  match cls (ini self) with
  | Regression => Regression_estimate self
  | IVReg => IVReg_estimate self
  end.

(** ** VCE Engine (core.py 712-800) *)

(** [sandwich] (core.py 799-800). *)
Definition sandwich (left B right : ndarray F) : result (ndarray F) :=
  t <<- dot left B ;; dot t right.

(** [vce_homosk] (core.py 713-717). *)
Definition vce_homosk (xpx_inv : ndarray F) (resid : vector F)
  : result (ndarray F) :=
  rr <<- vdot resid resid ;;
  s2 <<- fdiv rr (len resid)%:R ;;
  Ok (scale s2 xpx_inv).

(** [vce_robust] (core.py 720-725). *)
Definition vce_robust (xpx_inv : ndarray F) (resid : vector F)
    (x : DataFrame) : result (ndarray F) :=
  xu <<- mul_rows (values x) resid ;;
  B <<- dot (tr xu) xu ;;
  sandwich xpx_inv B (tr xpx_inv).

Definition row_vec (A : ndarray F) (i : 'I_(nrows A)) : vector F :=
  Vec (row i (mx_of A))^T.

(** [_get_h] (core.py 742-748): the leverage of every row. *)
Definition _get_h (x : DataFrame) (xpx_inv : ndarray F) : result (seq F) :=
  mapM (fun i =>
          let x_row := row_vec i in
          t <<- vdotm x_row xpx_inv ;;
          vdot t x_row)
       (enum 'I_(nrows (values x))).

(** [xu /= d[:, np.newaxis]]: row [i] divided by [d[i]]. *)
Definition div_rows (xu : ndarray F) (d : seq F) : result (ndarray F) :=
  if all (fun v => v != 0) d
  then Ok (Arr (\matrix_(i, j) (mx_of xu i j / nth 1 d i)))
  else Raise NonFinite.

(** [vce_hc23] (core.py 728-740). *)
Definition vce_hc23 (xpx_inv : ndarray F) (resid : vector F)
    (x : DataFrame) (hctype : option string) : result (ndarray F) :=
  xu <<- mul_rows (values x) resid ;;
  h <<- _get_h x xpx_inv ;;
  xu <<- (if hctype == Some "hc2" then
            d <<- mapM (fun hi => fsqrt (np_sqrt lib) (1 - hi)) h ;;
            div_rows xu d
          else if hctype == Some "hc3" then
            div_rows xu [seq 1 - hi | hi <- h]
          else Raise (ValueError EmptyString)) ;;
  B <<- dot (tr xu) xu ;;
  sandwich xpx_inv B (tr xpx_inv).

(** [vce_cluster] (core.py 751-760): the rows of [raw_xu] are summed
    within cluster ([pd.factorize] then [np.bincount]); the order of the
    clusters does not enter [B]. *)
Definition vce_cluster (xpx_inv : ndarray F) (resid : vector F)
    (x : DataFrame) (cluster : option series) : result (ndarray F) :=
  raw_xu <<- mul_rows (values x) resid ;;
  cl <<- (if cluster is Some c then Ok c else Raise TypeError) ;;
  let keys := cells cl in
  if (size keys != nrows raw_xu) || ~~ all isSome keys then
    Raise (ValueError "bincount")
  else
    let int_cluster := undup keys in
    let xu :=
      Arr (\matrix_(gi < size int_cluster, j < ncols raw_xu)
             \sum_(i < nrows raw_xu
                  | nth None keys i == nth None int_cluster gi)
                mx_of raw_xu i j) in
    B <<- dot (tr xu) xu ;;
    sandwich xpx_inv B (tr xpx_inv).

(** [_shac_kernels] (core.py 785-796): no function for another name. *)
Definition _shac_kernels (kernel band : option pyval)
  : option (F -> result F) :=
  let le_band := fun x : F =>
    if band is Some (PNum b) then Ok (if x <= b then 1 else 0 : F)
    else Raise TypeError in
  let unif := le_band in
  let tria := fun x : F =>
    if band is Some (PNum b) then
      q <<- fdiv x b ;; ind <<- le_band x ;; Ok ((1 - q) * ind)
    else Raise TypeError in
  match kernel with
  | Some (PStr s) =>
      if s == "unif" then Some unif
      else if s == "tria" then Some tria
      else None
  | _ => None
  end.

(** [lon.squeeze().values.astype(float)] *)
Definition squeeze_values (s : option series) : result (seq F) :=
  s' <<- attr s "squeeze" ;;
  if size (cells s') == 1%N then Raise (AttributeError "values")
  else cells_float (cells s').

(** [_shac_weights] (core.py 771-783): row [i] of [Wxu] is [w_i.dot(xu)],
    [w_i] the kernel weights of the distances from row [i]. *)
Definition _shac_weights (xu : ndarray F) (lon lat : option series)
    (kernel band : option pyval) : result (ndarray F) :=
  let N := nrows xu in
  lon_arr <<- squeeze_values lon ;;
  lat_arr <<- squeeze_values lat ;;
  let kern_func := _shac_kernels kernel band in
  if (size lon_arr != N) || (size lat_arr != N) then Raise IndexError
  else
    ws <<- mapM (fun i =>
                   mapM (fun j =>
                           let dist :=
                             np_sqrt lib
                               ((nth 0 lon_arr i - nth 0 lon_arr j) ^+ 2
                                + (nth 0 lat_arr i - nth 0 lat_arr j) ^+ 2) in
                           if kern_func is Some f then f dist
                           else Raise TypeError)
                        (iota 0 N))
                (iota 0 N) ;;
    Ok (Arr ((\matrix_(i < N, j < N) nth 0 (nth [::] ws i) j) *m mx_of xu)).

(** [vce_shac] (core.py 763-769). *)
Definition vce_shac (xpx_inv : ndarray F) (resid : vector F)
    (x : DataFrame) (shac_x shac_y : option series)
    (shac_kern shac_band : option pyval) : result (ndarray F) :=
  xu <<- mul_rows (values x) resid ;;
  Wxu <<- _shac_weights xu shac_x shac_y shac_kern shac_band ;;
  B <<- dot (tr xu) Wxu ;;
  sandwich xpx_inv B (tr xpx_inv).

(** [_prep_inference_mats] (core.py 245-254, 492-499). *)
Definition _prep_inference_mats (self : worker)
  : result (DataFrame * DataFrame) :=
  match cls (ini self) with
  | Regression => Ok (self_x self, self_x self)
  | IVReg =>
      Xhat <<- attr (self_Xhat self) "Xhat" ;;
      Xtrue <<- attr (self_Xtrue self) "Xtrue" ;;
      Ok (Xhat, Xtrue)
  end.

(** [yhat] and [resid] of [get_vce] (core.py 215-216). *)
Definition residuals (y : yobj) (X_for_resid : DataFrame) (b : labelled)
  : result (vector F * vector F) :=
  yhat <<- dotv (values X_for_resid) (data b) ;;
  resid <<- match y with
            | YSeries yv => vsub yv yhat
            | YScalar c => Ok (Vec (const_mx c - vec_of yhat))
            end ;;
  Ok (yhat, resid).

(** [_wrapSigma] (core.py 376-377). *)
Definition _wrapSigma (Sigma : ndarray F) (cols : seq string)
  : result DataFrame :=
  if shape Sigma == (size cols, size cols) then Ok (DF cols Sigma)
  else Raise (ValueError "Shape of passed values").

(** The VCE before it is made symmetric (core.py 219-233). *)
Definition raw_vce (self : worker) (xpx_inv : ndarray F) (resid : vector F)
    (X_inner_sum : DataFrame) : result (ndarray F) :=
  let vce_type := self_vce_type (ini self) in
  if vce_type is None then vce_homosk xpx_inv resid
  else if vce_type \in [:: Some "robust"; Some "hc1"] then
    vce_robust xpx_inv resid X_inner_sum
  else if vce_type \in [:: Some "hc2"; Some "hc3"] then
    vce_hc23 xpx_inv resid X_inner_sum vce_type
  else if vce_type == Some "cluster" then
    vce_cluster xpx_inv resid X_inner_sum (self_cluster_id self)
  else if vce_type == Some "shac" then
    vce_shac xpx_inv resid X_inner_sum (self_shac_x self) (self_shac_y self)
             (shac_kern (ini self)) (shac_band (ini self))
  else Raise (ValueError EmptyString).

(** [(vce + vce.T) / 2] *)
Definition symmetrize (vce : ndarray F) : result (ndarray F) :=
  s <<- add vce (tr vce) ;; Ok (scale 2^-1 s).

(** [RegBase.get_vce] (core.py 208-243). *)
Definition get_vce (self : worker) : result worker :=
  ' (X_inner_sum, X_for_resid) <<- _prep_inference_mats self ;;
  r <<- attr (self_results self) "results" ;;
  ' (yhat, resid) <<- residuals (self_y self) X_for_resid (beta r) ;;
  (* Check through VCE types *)
  vce <<- raw_vce self (xpx_inv r) resid X_inner_sum ;;
  (* Make sure it's symmetric (floating point error) *)
  s <<- symmetrize vce ;;
  v <<- _wrapSigma s (columns X_for_resid) ;;
  Ok (with_results self (add_vce_stats r v yhat resid (self_sample self))).

(** ** Degrees-of-Freedom Corrector (core.py 256-296, 363-374, 803-826)

    [n], [k] and [g] are Python integers, so [/] on them is true division
    and raises [ZeroDivisionError] on a zero divisor. *)

Definition df_std (n k : nat) : result (int * F) :=
  let df : int := n%:Z - k%:Z in
  if df == 0 then Raise ZeroDivisionError
  else Ok (df, n%:R / df%:~R).

Definition df_hc23 (n k : nat) : result (int * F) :=
  let df : int := n%:Z - k%:Z in
  Ok (df, 1).

(** [pd.value_counts] leaves missing values out. *)
Definition value_counts (s : series) : seq cell :=
  undup [seq c <- cells s | isSome c].

Definition df_cluster (n k : nat) (cluster_id : option series)
  : result (int * F * nat) :=
  cl <<- (if cluster_id is Some c then Ok c else Raise TypeError) ;;
  let g := size (value_counts cl) in
  let df : int := g%:Z - 1 in
  if (n%:Z - k%:Z == 0 :> int) || (g%:Z - 1 == 0 :> int)
  then Raise ZeroDivisionError
  else Ok (df,
           ((n%:Z - 1)%:~R / (n%:Z - k%:Z)%:~R) * (g%:R / (g%:Z - 1)%:~R),
           g).

Definition df_shac (n k : nat) : result (int * F) :=
  let df : int := n%:Z - k%:Z in
  Ok (df, 1).

(** [Series.max()]: [nan], here [None], on an empty Series. *)
Definition series_max (s : seq nat) : option nat :=
  if s is x :: s' then Some (foldr maxn x s') else None.

(** [_fe_nested_in_cluster] (core.py 363-374).  [pair_counts] has one entry
    for each (cluster, group) pair that occurs; [num_of_clusters] counts,
    for each group, the entries of [pair_counts] it appears in. *)
Definition _fe_nested_in_cluster (cluster_id A : option series) : bool :=
  match cluster_id, A with
  | Some c, Some a =>
      if name c == name a then true
      else
        let joint :=
          [seq p <- zip (cells c) (cells a) | isSome p.1 && isSome p.2] in
        let pair_counts :=
          [seq (p, count_mem p joint) | p <- undup joint] in
        let num_of_clusters :=
          [seq count (fun e : (cell * cell) * nat => e.1.2 == grp)
                     pair_counts
          | grp <- undup [seq e.1.2 | e <- pair_counts]] in
        series_max num_of_clusters == Some 1%N
  | _, _ => false
  end.

(** [A.unique()] *)
Definition unique (s : series) : seq cell := undup (cells s).

(** [RegBase._set_NK] (core.py 281-296). *)
Definition RegBase_set_NK (self : worker) : result (nat * nat * Results) :=
  let ' (N, K) := shape (values (self_x self)) in
  if self_A self is Some a then
    let K := if ~~ _fe_nested_in_cluster (self_cluster_id self) (self_A self)
             then (K + size (unique a))%N   (* Adjust dof's for group means *)
             else K in
    r <<- attr (self_results self) "results" ;;
    y_raw <<- attr (self_y_raw self) "y_raw" ;;
    s <<- sst_of y_raw ;;
    Ok (N, K, set_nocons (set_sst r s) true)
  else
    r <<- attr (self_results self) "results" ;;
    Ok (N, K, set_nocons r (nocons (kw (ini self)))).

(** [IVReg._set_NK] (core.py 501-505). *)
Definition IVReg_set_NK (self : worker) : result (nat * nat * Results) :=
  ' (N, K, r) <<- RegBase_set_NK self ;;
  let K := if self_w self is Some w then (K + ncols (values w))%N else K in
  Ok (N, K, r).

Definition _set_NK (self : worker) : result (nat * nat * Results) :=
  match cls (ini self) with
  | Regression => RegBase_set_NK self
  | IVReg => IVReg_set_NK self
  end.

(** The residual degrees of freedom and the correction, by VCE kind
    (core.py 264-272): with no branch taken, [df] is unbound. *)
Definition dof_of (vce_type : option string) (N K : nat)
    (cluster_id : option series) : result (int * F * option nat) :=
  if vce_type \in [:: None; Some "robust"; Some "hc1"] then
    ' (df, vce_correct) <<- df_std N K ;; Ok (df, vce_correct, None)
  else if vce_type \in [:: Some "hc2"; Some "hc3"] then
    ' (df, vce_correct) <<- df_hc23 N K ;; Ok (df, vce_correct, None)
  else if vce_type == Some "cluster" then
    ' (df, vce_correct, g) <<- df_cluster N K cluster_id ;;
    Ok (df, vce_correct, Some g)
  else if vce_type == Some "shac" then
    ' (df, vce_correct) <<- df_shac N K ;; Ok (df, vce_correct, None)
  else Raise (UnboundLocalError "df").

(** [self.results.vce *= vce_correct] *)
Definition scale_vce (v : DataFrame) (vce_correct : F) : DataFrame :=
  DF (columns v) (scale vce_correct (values v)).

(** [RegBase.set_dof] (core.py 256-279). *)
Definition set_dof (self : worker) : result worker :=
  ' (N, K, r) <<- _set_NK self ;;
  ' (df, vce_correct, g) <<-
    dof_of (self_vce_type (ini self)) N K (self_cluster_id self) ;;
  let r := if g is Some g' then add_g r g' else r in
  let r := add_dof_stats r N K df vce_correct in
  v <<- attr (vce r) "vce" ;;
  Ok (with_results self (set_vce r (scale_vce v vce_correct))).

(** ** Inference Engine (core.py 298-320) *)

Definition entry (A : ndarray F) (i j : nat) : F :=
  match insub i, insub j with
  | Some i', Some j' => mx_of A i' j'
  | _, _ => 0
  end.

(** [np.diagonal] *)
Definition diagonal (A : ndarray F) : seq F :=
  [seq entry A i i | i <- iota 0 (minn (nrows A) (ncols A))].

Definition inference (self : worker) : result worker :=
  r <<- attr (self_results self) "results" ;;
  v <<- attr (vce r) "vce" ;;
  let b := to_seq (data (beta r)) in
  t_df <<- attr (df_t r) "df_t" ;;
  se_v <<- mapM (fsqrt (np_sqrt lib)) (diagonal (values v)) ;;
  if size se_v != size b then Raise (ValueError "index")
  else
    t <<- mapM (fun p : F * F => fdiv p.1 p.2) (zip b se_v) ;;
    let p_values := [seq t_cdf lib (- `|x|) t_df * 2%:R | x <- t] in
    let conf_level : F := 95%:R / 100%:R in
    let crit_value :=
      t_ppf lib (conf_level + (1 - conf_level) / 2%:R) t_df in
    let ci_lo := [seq p.1 - crit_value * p.2 | p <- zip b se_v] in
    let ci_hi := [seq p.1 + crit_value * p.2 | p <- zip b se_v] in
    Ok (with_results self
          (add_inference r
             (Lab (columns v) (of_seq se_v))
             (Lab (index (beta r)) (of_seq t))
             (Lab (columns v) (of_seq p_values))
             (Lab (index (beta r)) (of_seq ci_lo))
             (Lab (index (beta r)) (of_seq ci_hi)))).

(** ** Entry points *)

(** The stages of [main] that follow the sample builder. *)
Definition fit (self : worker) : result Results :=
  self <<- estimate self ;;
  self <<- get_vce self ;;
  self <<- set_dof self ;;
  self <<- inference self ;;
  attr (self_results self) "results".

(** [RegBase.main] (core.py 152-159). *)
Definition main (self : init) : H Results :=
  w <~ RegBase_set_sample self ;;
  lift (fit w).

(** [reg] (core.py 16-71) and [ivreg] (core.py 74-117). *)
Definition reg (k : call) : H Results :=
  self <~ lift (RegBase_init Regression k) ;;
  main self.

Definition ivreg (k : call) : H Results :=
  self <~ lift (RegBase_init IVReg k) ;;
  main self.

(** ** F tests (core.py 631-709) *)

(** [vce.loc[cols, cols]] and [beta.loc[cols]] *)
Definition positions (labels cols : seq string) : result (seq nat) :=
  mapM (fun c => if c \in labels then Ok (seq.index c labels)
                 else Raise (KeyError c)) cols.

Definition loc_square (d : DataFrame) (cols : seq string)
  : result (ndarray F) :=
  ps <<- positions (columns d) cols ;;
  Ok (Arr (\matrix_(i < size cols, j < size cols)
             entry (values d) (nth 0%N ps i) (nth 0%N ps j))).

Definition loc_vector (b : labelled) (cols : seq string)
  : result (vector F) :=
  ps <<- positions (index b) cols ;;
  Ok (Vec (\col_(i < size cols)
             nth 0 (to_seq (data b)) (nth 0%N ps i))).

(** The [df_r] property (core.py 589-595). *)
Definition df_r (r : Results) : result int :=
  if _df_r r is Some d then Ok d
  else
    n <<- attr (res_N r) "N" ;;
    k <<- attr (res_K r) "K" ;;
    Ok (n%:Z - k%:Z).

(** The test matrix [R] and its number of rows [q] (core.py 649-661);
    [np.zeros] refuses a negative size. *)
Definition contrast (ncols_tested : nat) (equal : bool)
  : result (nat * ndarray F) :=
  if equal then
    if ncols_tested is q.+1 then
      Ok (q, Arr (\matrix_(i < q, j < q.+1)
                    (if (j == i :> nat) then 1
                     else if (j == i.+1 :> nat) then -1 else 0 : F)))
    else Raise (ValueError "negative dimensions are not allowed")
  else Ok (ncols_tested, eye F ncols_tested).

(** [f_test] (core.py 685-709). *)
Definition f_test (V R : ndarray F) (b r : vector F) (df_d : int)
  : result (F * F) :=
  Rb <<- dotv R b ;;
  Rbr <<- vsub Rb r ;;
  let Rbr := as_column Rbr in
  RV <<- dot R V ;;
  RVR <<- dot RV (tr R) ;;
  middle <<- la_inv RVR ;;
  df_n <<- matrix_rank lib R ;;
  t <<- dot (tr Rbr) middle ;;
  t2 <<- dot t Rbr ;;
  Fstat <<- fdiv (entry t2 0 0) df_n%:R ;;
  let pF := 1 - f_cdf lib Fstat df_n df_d in
  Ok (Fstat, pF).

(** [Results.Ftest] (core.py 631-663). *)
Definition Ftest (res : Results) (cols : seq string) (equal : bool)
  : result (F * F) :=
  v <<- attr (vce res) "vce" ;;
  V <<- loc_square v cols ;;
  b <<- loc_vector (beta res) cols ;;
  ' (q, R) <<- contrast (size cols) equal ;;
  let r := vzeros F q in
  d <<- df_r res ;;
  f_test V R b r d.

End Model.

(** ** Vocabulary of the statements *)

Section Vocabulary.
Variable F : realFieldType.

(** The coefficient vector of the normal equations. *)
Definition ols_beta n k (X : 'M[F]_(n, k)) (y : 'cV[F]_n) : 'cV[F]_k :=
  invmx (X^T *m X) *m (X^T *m y).


(** The (cluster, group) pairs of the rows, rows with a missing key left
    out as [groupby] does. *)
Definition joint_keys (c a : series F) : seq (cell F * cell F) :=
  [seq p <- zip (cells c) (cells a) | isSome p.1 && isSome p.2].

(** Every fixed-effect group lies in exactly one cluster (and there is at
    least one row). *)
Definition every_group_in_one_cluster (c a : series F) : bool :=
  let joint := joint_keys c a in
  (joint != [::])
  && all (fun g => size (undup [seq p.1 | p <- joint & p.2 == g]) == 1%N)
         (undup [seq p.2 | p <- joint]).

(** The words of the specification: "every cluster maps to exactly one
    group", and nesting as the specification defines it. *)
Definition every_cluster_has_one_group (c a : series F) : bool :=
  let joint := joint_keys c a in
  all (fun cl => size (undup [seq p.2 | p <- joint & p.1 == cl]) == 1%N)
      (undup [seq p.1 | p <- joint]).

Definition spec_nested (c a : series F) : bool :=
  (name c == name a) || every_cluster_has_one_group c a.

(** A call up to the end of the sample builder: [__init__], then
    [set_sample]. *)
Definition build_sample (lib : NumLib F) (c : klass) (k : call F)
  : H F (worker F) :=
  hbind (lift (RegBase_init c k)) (RegBase_set_sample lib).

(** Two workers that differ at most in the arrays of their sample. *)
Definition same_but_arrays (w1 w2 : worker F) : Prop :=
  [/\ ini w1 = ini w2, isSome (self_z w1) = isSome (self_z w2)
    & isSome (self_w w1) = isSome (self_w w2)].

(** The homoskedastic VCE as [get_vce] leaves it: the mean squared
    residual times the bread [B], averaged with its transpose. *)
Definition homosk_vce n k (X : 'M[F]_(n, k)) (y : 'cV[F]_n) (B : 'M[F]_k)
    (b : 'cV[F]_k) : 'M[F]_k :=
  let e := y - X *m b in
  let s2 := (e^T *m e) 0 0 / n%:R in
  2^-1 *: (s2 *: B + (s2 *: B)^T).

(** A computation that leaves alone the [b] objects the store held at
    first: from a store of at least [b] objects it ends, with or without
    an error, in a store whose first [b] objects are the same, and that
    has lost none; [Q] holds of what it returns. *)
Definition frames (b : nat) (A : Type) (m : H F A) (Q : A -> Prop) : Prop :=
  forall h, (b <= size h)%N ->
    [/\ take b (m h).2 = take b h, (size h <= size (m h).2)%N
      & forall a, (m h).1 = Ok a -> Q a].

(** An attribute that is [None] or refers to an object made after the
    first [b]; a worker all of whose attributes are so. *)
Definition ofresh (b : nat) (a : option loc) : bool :=
  if a is Some l then (b <= l)%N else true.

Definition dfresh (b : nat) (d : attrs) : bool :=
  all (fun p : string * option loc => ofresh b p.2) d.

(** The two attributes that only IV results carry. *)
Definition iv_attrs (r : Results F) : option string * option F :=
  (res_iv_method r, kappa r).

(** The test matrix of "the coefficients of one column are equal": no
    row, one column. *)
Definition no_contrast : ndarray F := Arr (0 : 'M[F]_(0, 1)).

(** "The caller receives a NaN F-stat": the quotient that gives the F
    statistic is no finite number. *)
Definition nan_F_stat (m : result (F * F)) : Prop := m = Raise NonFinite.

End Vocabulary.

(** ** Concrete inputs

    The model is run below on tables of rationals.  [ratlib] supplies the
    external routines there.  The rank is the exact one, and an array with
    no row or no column is refused as numpy refuses it: [matrix_rank]
    takes the largest singular value, and [max] of no value raises a
    [ValueError].  The other entries are exact on the inputs they are
    given in this file (the square root on 0 and 1, [sqrtm] on the
    identity, [eigvalsh] on diagonal arrays with an increasing diagonal)
    and arbitrary elsewhere. *)

Definition zero_size_reduction : string :=
  "zero-size array to reduction operation maximum which has no identity".

Definition ratlib : NumLib rat := {|
  np_sqrt := fun x => x;
  sqrtm := fun A => Ok A;
  eigvalsh := fun A => Ok (diagonal A);
  t_cdf := fun _ _ => 0;
  t_ppf := fun _ _ => 0;
  f_cdf := fun _ _ _ => 0;
  matrix_rank := fun A =>
    if (nrows A == 0%N) || (ncols A == 0%N)
    then Raise (ValueError zero_size_reduction)
    else Ok (\rank (mx_of A))
|}.

(** A call of [reg] on the table at location 0: outcome ["y"], one
    regressor ["x"], every option at its default. *)
Definition call_yx : call rat :=
  Call 0%N "y" [:: "x"] [::] [::] None true "2sls" None None None None
       false false None.

Definition init_yx (c : klass) : init rat :=
  Init c call_yx None None None None None.

(** Two rows, outcome [(1, 1)], regressor [(1, 1)]. *)
Definition ones21 : 'M[rat]_(2, 1) := const_mx 1.

Definition worker_yx : worker rat :=
  Worker (init_yx Regression) [:: true; true] (YSeries (Vec ones21))
         (DF [:: "x"] (Arr ones21))
         None None None None None None None None None None None.

(** The same worker after [estimate], and after [get_vce]. *)
Definition results_yx_fitted : Results rat :=
  set_sst (new_Results (Lab [:: "x"] (Vec (ols_beta ones21 ones21)))
                       (Arr (invmx (ones21^T *m ones21))))
          0.

Definition worker_yx_fitted : worker rat :=
  with_results worker_yx results_yx_fitted.

Definition vce_yx : DataFrame rat :=
  DF [:: "x"]
     (Arr (homosk_vce ones21 ones21 (invmx (ones21^T *m ones21))
                      (ols_beta ones21 ones21))).

Definition results_yx_vce : Results rat :=
  add_vce_stats results_yx_fitted vce_yx
    (Vec (ones21 *m ols_beta ones21 ones21))
    (Vec (ones21 - ones21 *m ols_beta ones21 ones21))
    [:: true; true].

Definition worker_yx_vce : worker rat :=
  with_results worker_yx_fitted results_yx_vce.

(** A store that holds the caller's table at location 0: three rows,
    columns ["y"], ["x"] and ["z"]; and one whose table has no ["z"]. *)
Definition table_yxz : frame rat :=
  Frame 3 [:: ("y", [:: Some 0; Some 1; Some 0]);
              ("x", [:: Some 1; Some 0; Some 1]);
              ("z", [:: Some 1; Some 0; Some 0])].

Definition table_yx : frame rat :=
  Frame 3 [:: ("y", [:: Some 0; Some 1; Some 0]);
              ("x", [:: Some 1; Some 0; Some 1])].

Definition heap_yxz : heap rat := [:: ORaw table_yxz].
Definition heap_yx : heap rat := [:: ORaw table_yx].

(** [ivreg(df, 'y', 'x', 'z', [], iv_method=m)] *)
Definition call_iv (m : string) : call rat :=
  Call 0%N "y" [:: "x"] [:: "z"] [::] None true m None None None None
       false false None.

(** What the sample builder makes of [table_yxz] under that call: the
    outcome [(0, 1, 0)], the endogenous regressor [(1, 0, 1)], the
    instrument [(1, 0, 0)], and a table of no column for [w_name = []]. *)
Definition y3 : 'M[rat]_(3, 1) := vec_of (of_seq [:: 0; 1; 0]).
Definition x3 : 'M[rat]_(3, 1) :=
  mx_of (frame_values (Frame 3 [:: ("x", [:: Some 1; Some 0; Some 1])])).
Definition z3 : 'M[rat]_(3, 1) :=
  mx_of (frame_values (Frame 3 [:: ("z", [:: Some 1; Some 0; Some 0])])).
Definition empty30 : 'M[rat]_(3, 0) :=
  mx_of (frame_values (Frame 3 [::])).

Definition worker_iv (m : string) : worker rat :=
  Worker (Init IVReg (call_iv m) None None None None None)
         [:: true; true; true]
         (YSeries (Vec y3)) (DF [:: "x"] (Arr x3))
         (Some (DF [:: "z"] (Arr z3))) (Some (DF [::] (Arr empty30)))
         None None None None None None None None None.

(** [worker_iv "2sls"] after [estimate]: the fitted regressor is the
    instrument itself, and the coefficient is 0. *)
Definition sst3 : rat :=
  if sst_of (YSeries (Vec y3)) is Ok s then s else 0.

Definition results_2sls : Results rat :=
  add_iv_method
    (set_r2_nan
       (set_sst (new_Results (Lab [:: "x"] (Vec (0 : 'cV[rat]_1)))
                             (Arr (1%:M : 'M[rat]_1))) sst3))
    "2sls".

Definition worker_2sls_fitted : worker rat :=
  with_results (with_X (worker_iv "2sls") (DF [:: "x"] (Arr z3))
                       (DF [:: "x"] (Arr x3)))
               results_2sls.

(** The outcome and the endogenous regressor side by side, as
    [_liml_kappa] stacks them. *)
Definition Y3 : 'M[rat]_(3, 1 + 1) := row_mx y3 x3.

(** Results that hold a VCE and degrees of freedom, for [Ftest]. *)
Definition results_yx_dof : Results rat :=
  add_dof_stats results_yx_vce 2 1 1 2%:R.

(** Two rows of one state (the cluster) that lie in two counties (the
    fixed-effect groups): the counties are nested in the state. *)
Definition cl_state : series rat := RawSeries "state" [:: Some 1; Some 1].
Definition fe_county : series rat := RawSeries "county" [:: Some 1; Some 2%:R].

(** [worker_yx_vce] with these keys, the fixed effects absorbed. *)
Definition worker_fe : worker rat :=
  Worker (init_yx Regression) [:: true; true] (YSeries (Vec ones21))
         (DF [:: "x"] (Arr ones21)) None None
         (Some fe_county) (Some cl_state) None None None
         (Some (YSeries (Vec ones21))) None None (Some results_yx_vce).

(** ** Properties of [Results] (core.py 596-629) *)

Section ResultsProperties.
Variable F : realFieldType.

(** The [ssr] property (core.py 596-602).  The value is kept in [_ssr],
    an attribute that nothing else writes. *)
Definition Results_ssr (r : Results F) : result F :=
  e <<- attr (resid r) "resid" ;; vdot e e.

(** The [sst] property (core.py 604-606). *)
Definition Results_sst (r : Results F) : result F := attr (_sst r) "_sst".

(** The [r2] property (core.py 613-619): [_r2] when it is set, [nan]
    included; [1 - ssr/sst] otherwise. *)
Definition Results_r2 (r : Results F) : result (cell F) :=
  if _r2 r is Some c then Ok c
  else
    ssr <<- Results_ssr r ;;
    sst <<- Results_sst r ;;
    q <<- fdiv ssr sst ;;
    Ok (Some (1 - q)).

(** The [r2_a] property (core.py 621-629). *)
Definition Results_r2_a (r : Results F) : result (cell F) :=
  if _r2_a r is Some c then Ok c
  else
    ssr <<- Results_ssr r ;;
    n <<- attr (res_N r) "N" ;;
    k <<- attr (res_K r) "K" ;;
    num <<- fdiv ssr (n%:Z - k%:Z)%:~R ;;
    sst <<- Results_sst r ;;
    n <<- attr (res_N r) "N" ;;
    den <<- fdiv sst (n%:Z - 1)%:~R ;;
    q <<- fdiv num den ;;
    Ok (Some (1 - q)).

End ResultsProperties.

(** ** Vocabulary of the further statements *)

Section ResultsVocabulary.
Variable F : realFieldType.
Variable lib : NumLib F.


(** The critical value of the 95% interval (core.py 314-315). *)
Definition crit_value (t_df : int) : F :=
  let conf_level : F := 95%:R / 100%:R in
  t_ppf lib (conf_level + (1 - conf_level) / 2%:R) t_df.


End ResultsVocabulary.

(** The keys [unpack_spatialargs] reads, in the order it reads them. *)
Definition shac_keys : seq string := [:: "x"; "y"; "band"; "kern"].

(** ** Further concrete inputs *)

(** Three rows of ones: the constant of a regression on [table_yxz]. *)
Definition ones31 : 'M[rat]_(3, 1) := const_mx 1.






(** One row, one regressor: a saturated model. *)
Definition worker_sat : worker rat :=
  Worker (init_yx Regression) [:: true]
         (YSeries (Vec (1%:M : 'cV[rat]_1))) (DF [:: "x"] (Arr (1%:M : 'M[rat]_1)))
         None None None None None None None None None None
         (Some results_yx_vce).

(** A sample of no row. *)
Definition worker_empty : worker rat :=
  Worker (init_yx Regression) [::]
         (YSeries (Vec (0 : 'cV[rat]_0))) (DF [:: "x"] (Arr (0 : 'M[rat]_(0, 1))))
         None None None None None None None None None None None.

(** A store with a table of one group column, the third row alone in
    its group, and a mask that holds every row. *)
Definition keys_g : seq (cell rat) := [:: Some 1; Some 1; Some 2%:R].

Definition table_g : frame rat := Frame 3 [:: ("g", keys_g)].

Definition heap_g : heap rat :=
  [:: ORaw table_g; OMask rat [:: true; true; true]].

(** A store with a group key and a float table of two rows. *)
Definition heap_fe : heap rat :=
  [:: ORawSeries fe_county; ODataFrame (DF [:: "x"] (Arr ones21))].



(** [ivreg(df, 'y', 'x', 'z', [], iv_method='liml', _kappa_debug=0)]
    and its worker on [table_yxz]. *)
Definition call_k0 : call rat :=
  Call 0%N "y" [:: "x"] [:: "z"] [::] None true "liml" (Some 0) None None
       None false false None.

Definition worker_k0 : worker rat :=
  Worker (Init IVReg call_k0 None None None None None)
         [:: true; true; true]
         (YSeries (Vec y3)) (DF [:: "x"] (Arr x3))
         (Some (DF [:: "z"] (Arr z3))) (Some (DF [::] (Arr empty30)))
         None None None None None None None None None.

(** * Theorems *)

(** ** VCE kind validation *)

Section VceTypeFacts.
Variable V : Type.
Implicit Types (vce_type cluster : option string) (shac : option (dict V)).

Lemma set_vce_type_invalid vce_type cluster shac :
  vce_type \notin valid_vce ->
  config_error (_set_vce_type vce_type cluster shac).
Proof. by rewrite /_set_vce_type => ->; eexists. Qed.

Lemma set_vce_type_both vce_type cluster shac :
  truthy_str cluster -> truthy_dict shac ->
  config_error (_set_vce_type vce_type cluster shac).
Proof.
rewrite /_set_vce_type => -> ->; case: ifP => _; first by eexists.
by eexists.
Qed.

Lemma set_vce_type_cluster_conflict vce_type cluster shac :
  truthy_str cluster -> vce_type != None -> vce_type != Some "cluster" ->
  config_error (_set_vce_type vce_type cluster shac).
Proof.
rewrite /_set_vce_type => -> -> ->; case: ifP => _; first by eexists.
by rewrite /= orbT; eexists.
Qed.

Lemma set_vce_type_shac_conflict vce_type cluster shac :
  truthy_dict shac -> vce_type != None -> vce_type != Some "shac" ->
  config_error (_set_vce_type vce_type cluster shac).
Proof.
rewrite /_set_vce_type => -> -> ->; case: ifP => _; first by eexists.
by rewrite /= !orbT; eexists.
Qed.

Lemma set_vce_type_cluster_alone vce_type cluster shac :
  truthy_str cluster -> ~~ truthy_dict shac ->
  vce_type = None \/ vce_type = Some "cluster" ->
  _set_vce_type vce_type cluster shac = Ok (Some "cluster").
Proof.
by rewrite /_set_vce_type => -> /negbTE-> [] ->.
Qed.

Lemma set_vce_type_shac_alone vce_type cluster shac :
  ~~ truthy_str cluster -> truthy_dict shac ->
  vce_type = None \/ vce_type = Some "shac" ->
  _set_vce_type vce_type cluster shac = Ok (Some "shac").
Proof.
by rewrite /_set_vce_type => /negbTE-> -> [] ->.
Qed.

Lemma set_vce_type_neither vce_type cluster shac :
  ~~ truthy_str cluster -> ~~ truthy_dict shac ->
  vce_type \in valid_vce ->
  _set_vce_type vce_type cluster shac = Ok vce_type.
Proof.
by rewrite /_set_vce_type => /negbTE-> /negbTE-> ->.
Qed.

(** C4.  The configuration of the VCE kind is validated by
    [_set_vce_type]: a cluster key together with a spatial-HAC config is a
    configuration error; so is a cluster key with an explicit [vce_type]
    other than ['cluster'], a spatial-HAC config with an explicit
    [vce_type] other than ['shac'], and a [vce_type] outside
    [None, robust, hc1, hc2, hc3, cluster, shac]; otherwise a cluster key
    alone gives ['cluster'] and a spatial-HAC config alone gives ['shac'].
    An argument is "supplied" when Python counts it as true. *)
Theorem set_vce_type_validation vce_type cluster shac :
  (truthy_str cluster -> truthy_dict shac ->
     config_error (_set_vce_type vce_type cluster shac))
  /\ (truthy_str cluster -> vce_type != None ->
      vce_type != Some "cluster" ->
      config_error (_set_vce_type vce_type cluster shac))
  /\ (truthy_dict shac -> vce_type != None -> vce_type != Some "shac" ->
      config_error (_set_vce_type vce_type cluster shac))
  /\ (vce_type \notin valid_vce ->
      config_error (_set_vce_type vce_type cluster shac))
  /\ (truthy_str cluster -> ~~ truthy_dict shac ->
      vce_type = None \/ vce_type = Some "cluster" ->
      _set_vce_type vce_type cluster shac = Ok (Some "cluster"))
  /\ (~~ truthy_str cluster -> truthy_dict shac ->
      vce_type = None \/ vce_type = Some "shac" ->
      _set_vce_type vce_type cluster shac = Ok (Some "shac")).
Proof.
split; first exact: set_vce_type_both.
split; first exact: set_vce_type_cluster_conflict.
split; first exact: set_vce_type_shac_conflict.
split; first exact: set_vce_type_invalid.
split; first exact: set_vce_type_cluster_alone.
exact: set_vce_type_shac_alone.
Qed.

End VceTypeFacts.

(** ** Arrays of fitting shapes *)

Section ArrayFacts.
Variable F : realFieldType.

Lemma bind_Ok (A B : Type) (a : A) (k : A -> result B) :
  bind (Ok a) k = k a.
Proof. by []. Qed.

Lemma dotE n k m (A : 'M[F]_(n, k)) (B : 'M[F]_(k, m)) :
  dot (Arr A) (Arr B) = Ok (Arr (A *m B)).
Proof.
rewrite /dot /=; case: eqP => // e.
by rewrite (eq_axiomK e) castmx_id.
Qed.

Lemma dotvE n k (A : 'M[F]_(n, k)) (v : 'cV[F]_k) :
  dotv (Arr A) (Vec v) = Ok (Vec (A *m v)).
Proof.
rewrite /dotv /=; case: eqP => // e.
by rewrite (eq_axiomK e) castmx_id.
Qed.

Lemma vdotE n (u v : 'cV[F]_n) :
  vdot (Vec u) (Vec v) = Ok ((u^T *m v) 0 0).
Proof.
rewrite /vdot /=; case: eqP => // e.
by rewrite (eq_axiomK e) castmx_id.
Qed.

Lemma addE n k (A B : 'M[F]_(n, k)) :
  add (Arr A) (Arr B) = Ok (Arr (A + B)).
Proof.
rewrite /add /=; case: eqP => // e1; case: eqP => // e2.
by rewrite (eq_axiomK e1) (eq_axiomK e2) castmx_id.
Qed.

Lemma subE n k (A B : 'M[F]_(n, k)) :
  sub (Arr A) (Arr B) = Ok (Arr (A - B)).
Proof.
rewrite /sub /=; case: eqP => // e1; case: eqP => // e2.
by rewrite (eq_axiomK e1) (eq_axiomK e2) castmx_id.
Qed.

Lemma vaddE n (u v : 'cV[F]_n) : vadd (Vec u) (Vec v) = Ok (Vec (u + v)).
Proof.
rewrite /vadd /=; case: eqP => // e.
by rewrite (eq_axiomK e) castmx_id.
Qed.

Lemma vsubE n (u v : 'cV[F]_n) : vsub (Vec u) (Vec v) = Ok (Vec (u - v)).
Proof.
rewrite /vsub /=; case: eqP => // e.
by rewrite (eq_axiomK e) castmx_id.
Qed.

Lemma hcatE n k m (A : 'M[F]_(n, k)) (B : 'M[F]_(n, m)) :
  hcat (Arr A) (Arr B) = Ok (Arr (row_mx A B)).
Proof.
rewrite /hcat /=; case: eqP => // e.
by rewrite (eq_axiomK e) castmx_id.
Qed.

Lemma mul_rowsE n k (X : 'M[F]_(n, k)) (v : 'cV[F]_n) :
  mul_rows (Arr X) (Vec v) = Ok (Arr (\matrix_(i, j) (X i j * v i 0))).
Proof.
rewrite /mul_rows /=; case: eqP => // e.
by rewrite (eq_axiomK e) castmx_id.
Qed.

Lemma la_invE n (A : 'M[F]_n) :
  la_inv (Arr A)
  = if A \in unitmx then Ok (Arr (invmx A)) else Raise LinAlgError.
Proof.
rewrite /la_inv /=; case: eqP => // e.
by rewrite (eq_axiomK e) castmx_id.
Qed.

Lemma trE n k (A : 'M[F]_(n, k)) : tr (Arr A) = Arr A^T.
Proof. by []. Qed.

Lemma Arr_inj n k (A B : 'M[F]_(n, k)) : Arr A = Arr B -> A = B.
Proof.
move=> e.
have := f_equal (fun X : ndarray F =>
                   match nrows X =P n, ncols X =P k with
                   | ReflectT en, ReflectT ek => castmx (en, ek) (mx_of X)
                   | _, _ => 0
                   end) e.
rewrite /=; case: (n =P n) => // en; case: (k =P k) => // ek.
by rewrite (eq_axiomK en) (eq_axiomK ek) !castmx_id.
Qed.

Lemma Vec_inj n (u v : 'cV[F]_n) : Vec u = Vec v -> u = v.
Proof.
move=> e.
have := f_equal (fun X : vector F =>
                   match len X =P n with
                   | ReflectT en => castmx (en, erefl) (vec_of X)
                   | _ => 0
                   end) e.
rewrite /=; case: (n =P n) => // en.
by rewrite (eq_axiomK en) !castmx_id.
Qed.

(** [la_inv] only ever returns square arrays. *)
Lemma la_inv_square (A B : ndarray F) :
  la_inv A = Ok B -> nrows B = ncols B.
Proof.
rewrite /la_inv; case: eqP => // e.
by case: ifP => // _ [<-].
Qed.

(** The sum of a square array and its transpose, halved or scaled, is
    its own transpose. *)
Lemma symmetrize_sym (V S : ndarray F) :
  symmetrize V = Ok S -> tr S = S.
Proof.
case: V => n k M; rewrite /symmetrize /add /=.
case: eqP => // e1; case: eqP => // e2 /= [<-].
subst k; rewrite (eq_axiomK e2) castmx_id /tr /scale /=.
by rewrite linearZ /= linearD /= trmxK addrC.
Qed.

Lemma scale_sym (c : F) (S : ndarray F) : tr S = S -> tr (scale c S) = scale c S.
Proof.
case: S => n k M; rewrite /tr /scale /= => e.
have e1 : k = n by case: e.
subst k.
by rewrite linearZ /= (Arr_inj e).
Qed.

End ArrayFacts.

(** ** Linear Solver and residuals *)

Section SolverFacts.
Variable F : realFieldType.
Variable lib : NumLib F.

Lemma fitgutsE n k (X : 'M[F]_(n, k)) (y : 'cV[F]_n) (cols : seq string) :
  X^T *m X \in unitmx ->
  fitguts (YSeries (Vec y)) (DF cols (Arr X))
  = Ok (Lab cols (Vec (ols_beta X y)), Arr (invmx (X^T *m X))).
Proof.
by move=> U; rewrite /fitguts /= trE dotE /= la_invE U /= dotvE /= dotvE.
Qed.

Lemma fitguts_singular n k (X : 'M[F]_(n, k)) (y : 'cV[F]_n)
    (cols : seq string) :
  X^T *m X \notin unitmx ->
  fitguts (YSeries (Vec y)) (DF cols (Arr X)) = Raise LinAlgError.
Proof.
by move=> /negbTE U; rewrite /fitguts /= trE dotE /= la_invE U.
Qed.


Lemma sst_ofE n (y : 'cV[F]_n) :
  (0 < n)%N -> is_ok (sst_of (YSeries (Vec y))).
Proof.
by move=> n0; rewrite /sst_of /fdiv /= pnatr_eq0 eqn0Ngt n0.
Qed.



End SolverFacts.

(** ** VCE Engine and Degrees-of-Freedom Corrector *)

Section VceFacts.
Variable F : realFieldType.
Variable lib : NumLib F.

Lemma get_vce_sym (self self1 : worker F) (r : Results F) (v : DataFrame F) :
  get_vce lib self = Ok self1 ->
  self_results self1 = Some r -> vce r = Some v ->
  tr (values v) = values v.
Proof.
rewrite /get_vce.
case: (_prep_inference_mats self) => //= -[Xi Xr].
case: (attr _ _) => //= r0.
case: (residuals _ _ _) => //= -[yh rs].
case: (raw_vce _ _ _ _ _) => //= raw.
case E: (symmetrize raw) => [s|] //=.
rewrite /_wrapSigma; case: ifP => //= _ [<-] /= [<-] /= [<-] /=.
exact: symmetrize_sym E.
Qed.

Lemma RegBase_set_NK_vce (self : worker F) N K (r' : Results F) :
  RegBase_set_NK self = Ok (N, K, r') ->
  exists2 r, self_results self = Some r & vce r' = vce r.
Proof.
rewrite /RegBase_set_NK; case: (shape _) => n k.
case: (self_A self) => [a|]; case: (self_results self) => //= r.
  case: (attr _ _) => //= yr; case: (sst_of yr) => //= s [_ _ <-].
  by exists r.
by case=> _ _ <-; exists r.
Qed.

Lemma set_NK_vce (self : worker F) N K (r' : Results F) :
  _set_NK self = Ok (N, K, r') ->
  exists2 r, self_results self = Some r & vce r' = vce r.
Proof.
rewrite /_set_NK /IVReg_set_NK; case: (cls _); first exact: RegBase_set_NK_vce.
case E: (RegBase_set_NK self) => [[[n k] r0]|] //= [_ _ <-].
exact: RegBase_set_NK_vce E.
Qed.

(** What [set_dof] leaves in [vce]: the VCE it found, times the
    correction it stores. *)
Lemma set_dof_vce (self self2 : worker F) (r2 : Results F) :
  set_dof self = Ok self2 -> self_results self2 = Some r2 ->
  exists r v c,
    [/\ self_results self = Some r, vce r = Some v,
        _vce_correct r2 = Some c & vce r2 = Some (scale_vce v c)].
Proof.
rewrite /set_dof.
case E: (_set_NK self) => [[[N K] r']|] //=.
case: (dof_of _ _ _ _) => //= -[[df c] g].
have [r Hr Hv] := set_NK_vce E.
have -> : vce (add_dof_stats (if g is Some g' then add_g r' g' else r')
                             N K df c) = vce r.
  by rewrite -Hv; case: g.
case Ev: (vce r) => [v|] //= [<-] /= [<-] /=.
by exists r, v, c.
Qed.

(** C5.  Whatever the VCE kind, the VCE that [get_vce] stores is equal to
    its own transpose, since it is the raw matrix averaged with its
    transpose; the scaling by [set_dof] keeps it so, which makes the VCE
    of the returned [Results] symmetric. *)
Theorem vce_symmetric (self self1 : worker F) (r : Results F)
    (v : DataFrame F) :
  get_vce lib self = Ok self1 ->
  self_results self1 = Some r -> vce r = Some v ->
  tr (values v) = values v
  /\ forall self2 r2 v2,
       set_dof self1 = Ok self2 ->
       self_results self2 = Some r2 -> vce r2 = Some v2 ->
       tr (values v2) = values v2.
Proof.
move=> Hg Hr Hv.
have Hs := get_vce_sym Hg Hr Hv; split=> // self2 r2 v2 Hd Hr2.
have [r' [v' [c [Hr' Hv' _ ->]]]] := set_dof_vce Hd Hr2.
case=> <-; rewrite /scale_vce /=.
move: Hr' Hv'; rewrite Hr => -[<-]; rewrite Hv => -[<-].
exact: scale_sym.
Qed.

(** [get_vce] returns on an OLS worker with the default VCE kind, a
    sample that is not empty and one label for each column. *)
Lemma get_vce_homoskE (self : worker F) n k (X : 'M[F]_(n, k))
    (y : 'cV[F]_n) (cols : seq string) (r : Results F) (b : 'cV[F]_k)
    (B : 'M[F]_k) :
  cls (ini self) = Regression -> self_vce_type (ini self) = None ->
  self_y self = YSeries (Vec y) -> self_x self = DF cols (Arr X) ->
  self_results self = Some r ->
  data (beta r) = Vec b -> xpx_inv r = Arr B ->
  size cols = k -> (0 < n)%N ->
  get_vce lib self
  = Ok (with_results self
          (add_vce_stats r (DF cols (Arr (homosk_vce X y B b)))
             (Vec (X *m b)) (Vec (y - X *m b)) (self_sample self))).
Proof.
move=> Hc Hv Hy Hx Hr Hb HB Hk n0.
rewrite /get_vce /_prep_inference_mats Hc /= Hr /= Hy Hx /residuals Hb /=.
rewrite dotvE /= vsubE /= /raw_vce Hv /vce_homosk vdotE /= /fdiv.
rewrite pnatr_eq0 eqn0Ngt n0 /= HB /symmetrize /scale /= trE addE /=.
by rewrite /_wrapSigma /shape /= Hk eqxx.
Qed.




End VceFacts.

(** ** IV Estimator *)

Section IVFacts.
Variable F : realFieldType.
Variable lib : NumLib F.




(** A 2SLS estimation that returns leaves results that carry [iv_method]
    and no [kappa] attribute. *)
Lemma IVReg_estimate_2sls (self self1 : worker F) :
  iv_method (kw (ini self)) = "2sls" ->
  IVReg_estimate lib self = Ok self1 ->
  omap (@iv_attrs F) (self_results self1) = Some (Some "2sls", None).
Proof.
move=> Hm; rewrite /IVReg_estimate Hm /=.
case: (self_w self) => [w|] //=; case: (self_z self) => [z|] //=.
case: (_first_stage _ _ _) => [[Xhat Xtrue]|] //=.
case: (fitguts _ _) => [[b xi]|] //=.
by case: (sst_of _) => //= s [<-].
Qed.

(** The stages that follow [estimate] leave [iv_method] and [kappa] as
    they find them. *)
Lemma get_vce_iv_attrs (self self1 : worker F) :
  get_vce lib self = Ok self1 ->
  omap (@iv_attrs F) (self_results self1) = omap (@iv_attrs F) (self_results self).
Proof.
rewrite /get_vce.
case: (_prep_inference_mats self) => //= -[Xi Xr].
case: (self_results self) => //= r0.
case: (residuals _ _ _) => //= -[yh rs].
case: (raw_vce _ _ _ _ _) => //= raw.
case: (symmetrize raw) => [s|] //=.
by case: (_wrapSigma _ _) => //= v [<-].
Qed.

Lemma RegBase_set_NK_iv_attrs (self : worker F) N K (r' : Results F) :
  RegBase_set_NK self = Ok (N, K, r') ->
  omap (@iv_attrs F) (self_results self) = Some (iv_attrs r').
Proof.
rewrite /RegBase_set_NK; case: (shape _) => n k.
case: (self_A self) => [a|]; case: (self_results self) => //= r.
  by case: (attr _ _) => //= yr; case: (sst_of yr) => //= s [_ _ <-].
by case=> _ _ <-.
Qed.

Lemma set_NK_iv_attrs (self : worker F) N K (r' : Results F) :
  _set_NK self = Ok (N, K, r') ->
  omap (@iv_attrs F) (self_results self) = Some (iv_attrs r').
Proof.
rewrite /_set_NK /IVReg_set_NK; case: (cls _).
  exact: RegBase_set_NK_iv_attrs.
case E: (RegBase_set_NK self) => [[[n k] r0]|] //= [_ _ <-].
exact: RegBase_set_NK_iv_attrs E.
Qed.

Lemma set_dof_iv_attrs (self self1 : worker F) :
  set_dof self = Ok self1 ->
  omap (@iv_attrs F) (self_results self1) = omap (@iv_attrs F) (self_results self).
Proof.
rewrite /set_dof.
case E: (_set_NK self) => [[[N K] r']|] //=.
case: (dof_of _ _ _ _) => //= -[[df c] g].
rewrite (set_NK_iv_attrs E).
case: (attr _ _) => //= v [<-] /=.
by case: g.
Qed.

Lemma inference_iv_attrs (self self1 : worker F) :
  inference lib self = Ok self1 ->
  omap (@iv_attrs F) (self_results self1) = omap (@iv_attrs F) (self_results self).
Proof.
rewrite /inference; case: (self_results self) => //= r.
case: (attr (vce r) _) => //= v; case: (attr (df_t r) _) => //= t.
case: (mapM _ _) => //= se; case: ifP => // _.
by case: (mapM _ _) => //= ts [<-].
Qed.

(** The results a call returns hold the [iv_method] and the [kappa] that
    [estimate] has set. *)
Lemma fit_iv_attrs (self self1 : worker F) (r : Results F) :
  estimate lib self = Ok self1 -> fit lib self = Ok r ->
  omap (@iv_attrs F) (self_results self1) = Some (iv_attrs r).
Proof.
rewrite /fit => -> /=.
case E2: (get_vce lib self1) => [self2|] //=.
case E3: (set_dof self2) => [self3|] //=.
case E4: (inference lib self3) => [self4|] //=.
rewrite -(get_vce_iv_attrs E2) -(set_dof_iv_attrs E3).
rewrite -(inference_iv_attrs E4).
by case: (self_results self4) => //= r4 [<-].
Qed.

(** With an [iv_method] that is neither ['2sls'] nor ['liml'],
    [IVReg.estimate] raises before it touches an array. *)
Lemma IVReg_estimate_unsupported (self : worker F) :
  iv_method (kw (ini self)) \notin [:: "2sls"; "liml"] ->
  IVReg_estimate lib self
  = if self_w self is Some _ then
      if self_z self is Some _ then Raise (AttributeError "method")
      else Raise (AttributeError "z")
    else Raise (AttributeError "w").
Proof.
rewrite !inE negb_or => /andP[/negbTE H2 /negbTE Hl].
rewrite /IVReg_estimate H2 Hl.
by case: (self_w self) => [w|] //=; case: (self_z self).
Qed.

Lemma hbind_Ok (A B : Type) (m : H F A) (k : A -> H F B) (h h' : heap F)
    (b : B) :
  hbind m k h = (Ok b, h') ->
  exists a h1, m h = (Ok a, h1) /\ k a h1 = (Ok b, h').
Proof.
by rewrite /hbind; case: (m h) => [[a|e] h1] // E; exists a, h1.
Qed.

(** One step through a computation on the store that has returned. *)
Ltac hinv :=
  rewrite {1}/hbind;
  lazymatch goal with
  | |- (match ?X with pair _ _ => _ end) = _ -> _ =>
      case: X => [[?|?] ?] //=
  end.

Lemma read_worker_ini (self : init F) (sample : loc) (d : attrs)
    (h h' : heap F) (w : worker F) :
  read_worker self sample d h = (Ok w, h') -> ini w = self.
Proof.
rewrite /read_worker; do 15!hinv.
by case=> <-.
Qed.

Lemma RegBase_set_sample_ini (self : init F) (h h' : heap F)
    (w : worker F) :
  RegBase_set_sample lib self h = (Ok w, h') -> ini w = self.
Proof.
rewrite /RegBase_set_sample; do 11!hinv.
exact: read_worker_ini.
Qed.

Lemma RegBase_init_Ok (c : klass) (k : call F) (self : init F) :
  RegBase_init c k = Ok self -> cls self = c /\ kw self = k.
Proof.
rewrite /RegBase_init; case: (_set_vce_type _ _ _) => //= v.
by case: (unpack_shac_args _) => //= -[[[sx sy] sb] sk] [<-].
Qed.

Lemma estimate_unsupported (w : worker F) :
  cls (ini w) = IVReg ->
  iv_method (kw (ini w)) \notin [:: "2sls"; "liml"] ->
  exists a,
    estimate lib w = Raise (AttributeError a)
    /\ forall w', same_but_arrays w' w ->
                  estimate lib w' = Raise (AttributeError a).
Proof.
move=> Hc Hm.
have H w' : same_but_arrays w' w -> estimate lib w' = estimate lib w.
  move=> [Hi Hz Hw].
  rewrite /estimate Hi Hc !IVReg_estimate_unsupported ?Hi //.
  by move: Hz Hw; case: (self_w w') => [?|]; case: (self_w w) => [?|] //;
     case: (self_z w') => [?|]; case: (self_z w) => [?|].
have [a Ea] : exists a, estimate lib w = Raise (AttributeError a).
  rewrite /estimate Hc IVReg_estimate_unsupported //.
  by case: (self_w w) => [?|]; [case: (self_z w) => [?|]|]; eexists.
by exists a; split=> // w' /H ->.
Qed.

(** C7, amended.  An IV call whose [iv_method] is neither ['2sls'] nor
    ['liml'] returns no results.  The entry checks and the sample builder
    run first, and a failure there is the failure of the call; when they
    succeed the call fails in [estimate], with an error that does not
    depend on the arrays of the sample: no linear algebra has been done
    by then. *)
Theorem ivreg_unsupported_method (k : call F) (h : heap F) :
  iv_method k \notin [:: "2sls"; "liml"] ->
  match build_sample lib IVReg k h with
  | (Raise e, h') => ivreg lib k h = (Raise e, h')
  | (Ok w, h') =>
      exists e,
        [/\ ivreg lib k h = (Raise e, h'), estimate lib w = Raise e
          & forall w', same_but_arrays w' w -> estimate lib w' = Raise e]
  end.
Proof.
move=> Hm; rewrite /ivreg /build_sample /hbind /lift /main /hbind.
case Ei: (RegBase_init IVReg k) => [self|e] //.
have [Hc Hk] := RegBase_init_Ok Ei.
case Es: (RegBase_set_sample lib self h) => [[w|e] h'] //.
have Hi := RegBase_set_sample_ini Es.
have [a [Ea Ha]] : exists a,
    estimate lib w = Raise (AttributeError a)
    /\ forall w', same_but_arrays w' w ->
                  estimate lib w' = Raise (AttributeError a).
  by apply: estimate_unsupported; rewrite Hi ?Hc ?Hk.
by exists (AttributeError a); split=> //; rewrite /fit Ea.
Qed.

(** An IV call is the sample builder, then the fit on the worker it has
    built. *)
Lemma ivreg_as_fit (k : call F) (h : heap F) :
  ivreg lib k h
  = match build_sample lib IVReg k h with
    | (Ok w, h') => (fit lib w, h')
    | (Raise e, h') => (Raise e, h')
    end.
Proof.
rewrite /ivreg /build_sample /hbind /lift /main /hbind.
by case: (RegBase_init IVReg k) => [self|e].
Qed.

Lemma build_sample_ini (c : klass) (k : call F) (h h' : heap F)
    (w : worker F) :
  build_sample lib c k h = (Ok w, h') -> cls (ini w) = c /\ kw (ini w) = k.
Proof.
rewrite /build_sample /hbind /lift.
case Ei: (RegBase_init c k) => [self|e] // Es.
by rewrite (RegBase_set_sample_ini Es); exact: RegBase_init_Ok Ei.
Qed.

(** An IV call returns when the sample builder does and the fit returns
    on the worker it has built. *)
Lemma ivreg_returns (k : call F) (h : heap F) (w : worker F) :
  (build_sample lib IVReg k h).1 = Ok w -> is_ok (fit lib w) ->
  exists r h', ivreg lib k h = (Ok r, h').
Proof.
rewrite ivreg_as_fit.
case: (build_sample lib IVReg k h) => [[w'|e] h1] //= [->].
by case: (fit lib w) => [r|] // _; exists r, h1.
Qed.

(** C8.  An IV call with [iv_method='2sls'] that returns: the results
    carry [iv_method], and no [kappa] attribute, which [estimate] adds
    under ['liml'] only.  (The docstring of [ivreg] promises a [kappa]
    attribute that is "always 1" under 2SLS.) *)
Theorem ivreg_2sls_has_no_kappa (k : call F) (h h' : heap F)
    (r : Results F) :
  iv_method k = "2sls" -> ivreg lib k h = (Ok r, h') ->
  res_iv_method r = Some "2sls" /\ kappa r = None.
Proof.
move=> Hm; rewrite ivreg_as_fit.
case Eb: (build_sample lib IVReg k h) => [[w|e] h1] // [Hf _].
have [Hc Hk] := build_sample_ini Eb.
move: (Hf); rewrite {1}/fit; case Ee: (estimate lib w) => [w1|] //= _.
have := fit_iv_attrs Ee Hf.
move: Ee; rewrite /estimate Hc => /IVReg_estimate_2sls.
by rewrite Hk => /(_ Hm) -> [<- <-].
Qed.

End IVFacts.

(** C7 as worded fails.  [ivreg(df, 'y', 'x', 'z', [], iv_method='gmm')]
    on a table with no column ['z']: the call ends with the [KeyError] of
    the sample builder, which therefore ran before [iv_method] was looked
    at, and not with a configuration error.  On a table that has the
    column, the sample is built and [estimate] then fails, with an
    [AttributeError]. *)
Lemma unsupported_method_counterexample :
  [/\ "gmm" \notin [:: "2sls"; "liml"],
      (build_sample ratlib IVReg (call_iv "gmm") heap_yx).1
      = Raise (KeyError "z"),
      (ivreg ratlib (call_iv "gmm") heap_yx).1 = Raise (KeyError "z"),
      ~ config_error (ivreg ratlib (call_iv "gmm") heap_yx).1
    & (ivreg ratlib (call_iv "gmm") heap_yxz).1
      = Raise (AttributeError "method")].
Proof. by split=> //; case. Qed.

(** The amended C7 at [ivreg(df, 'y', 'x', 'z', [], iv_method='gmm')] on
    the table with all three columns. *)
Lemma ivreg_unsupported_method_witness :
  match build_sample ratlib IVReg (call_iv "gmm") heap_yxz with
  | (Raise e, h') => ivreg ratlib (call_iv "gmm") heap_yxz = (Raise e, h')
  | (Ok w, h') =>
      exists e,
        [/\ ivreg ratlib (call_iv "gmm") heap_yxz = (Raise e, h'),
            estimate ratlib w = Raise e
          & forall w', same_but_arrays w' w -> estimate ratlib w' = Raise e]
  end.
Proof.
exact (@ivreg_unsupported_method rat ratlib (call_iv "gmm") heap_yxz isT).
Defined.


(** ** Fixed effects nested in clusters *)

Section CountingFacts.
Variables (T1 T2 : eqType).

Lemma undup_nilE (A : eqType) (s : seq A) : (undup s == [::]) = (s == [::]).
Proof.
case: s => [|x s] //; apply/eqP => E.
by have := mem_head x s; rewrite -mem_undup E.
Qed.

Lemma size_undup_map_in (A B : eqType) (f : A -> B) (s : seq A) :
  {in s &, injective f} -> size (undup (map f s)) = size (undup s).
Proof.
move=> inj_f.
have U : uniq (map f (undup s)).
  rewrite map_inj_in_uniq ?undup_uniq // => x y.
  by rewrite !mem_undup; exact: inj_f.
have M : undup (map f s) =i map f (undup s).
  move=> z; rewrite mem_undup; apply: eq_mem_map => x.
  by rewrite mem_undup.
have := uniq_size_uniq (undup_uniq (map f s)) M.
by rewrite U size_map => /esym/eqP.
Qed.

(** Among the distinct pairs, those of group [g] are as many as the
    distinct clusters that [g] meets. *)
Lemma count_undup_pairs (joint : seq (T1 * T2)) (g : T2) :
  count (fun p => p.2 == g) (undup joint)
  = size (undup [seq p.1 | p <- joint & p.2 == g]).
Proof.
rewrite -size_filter filter_undup size_undup_map_in // => -[x1 x2] [y1 y2].
by rewrite !mem_filter /= => /andP[/eqP-> _] /andP[/eqP-> _] ->.
Qed.

Lemma series_max_eq1 (l : seq nat) :
  all (fun x => 0 < x)%N l ->
  (series_max l == Some 1%N) = (l != [::]) && all (pred1 1%N) l.
Proof.
case: l => [|x l] //= /andP[x0 l0].
rewrite /=; have -> : (Some (foldr maxn x l) == Some 1%N)
                      = (foldr maxn x l == 1%N) by [].
elim: l l0 => [|y l IH] /=; first by rewrite andbT.
case/andP=> y0 /IH {}IH.
rewrite andbCA -IH {IH}.
have m0 : (0 < foldr maxn x l)%N.
  by elim: l => [|z l IHl] //=; rewrite leq_max IHl orbT.
move: (foldr maxn x l) m0 => m m0 {x l x0}.
by case: y y0 => [|[|y]] // _; case: m m0 => [|[|m]] // _; rewrite ?maxnSS.
Qed.

End CountingFacts.

Section NestingFacts.
Variable F : realFieldType.

(** The test of [_fe_nested_in_cluster], for keys of different names. *)
Lemma fe_nested_in_clusterE (c a : series F) :
  name c != name a ->
  _fe_nested_in_cluster (Some c) (Some a) = every_group_in_one_cluster c a.
Proof.
move=> /negbTE Hn; rewrite /_fe_nested_in_cluster Hn.
rewrite /every_group_in_one_cluster -/(joint_keys c a).
set joint := joint_keys c a.
set pc := [seq (p, count_mem p joint) | p <- undup joint].
have pc2 : [seq e.1.2 | e <- pc] = [seq p.2 | p <- undup joint].
  by rewrite /pc -map_comp.
have cnt g : count (fun e : (cell F * cell F) * nat => e.1.2 == g) pc
             = size (undup [seq p.1 | p <- joint & p.2 == g]).
  by rewrite /pc count_map -count_undup_pairs; apply: eq_count => p.
rewrite series_max_eq1.
  apply/allP => n /mapP[g]; rewrite mem_undup pc2 => /mapP[p Hp ->] ->.
  by rewrite -has_count; apply/hasP; exists (p, count_mem p joint);
     rewrite ?map_f //=.
congr (_ && _).
  rewrite pc2 -size_eq0 size_map size_eq0 undup_nilE.
  by rewrite -size_eq0 size_map size_eq0 undup_nilE.
rewrite all_map pc2.
have M : undup [seq p.2 | p <- undup joint] =i undup [seq p.2 | p <- joint].
  move=> z; rewrite !mem_undup; apply: eq_mem_map => x.
  by rewrite mem_undup.
rewrite (eq_all_r M); apply: eq_all => g /=.
by rewrite cnt.
Qed.

(** [RegBase._set_NK] with fixed effects absorbed. *)
Lemma RegBase_set_NK_absorbedE (self : worker F) (a : series F)
    (r : Results F) (y_raw : yobj F) (s : F) :
  self_A self = Some a -> self_results self = Some r ->
  self_y_raw self = Some y_raw -> sst_of y_raw = Ok s ->
  RegBase_set_NK self
  = Ok (nrows (values (self_x self)),
        if _fe_nested_in_cluster (self_cluster_id self) (Some a)
        then ncols (values (self_x self))
        else (ncols (values (self_x self)) + size (unique a))%N,
        set_nocons (set_sst r s) true).
Proof.
move=> HA Hr Hy Hs.
rewrite /RegBase_set_NK /shape HA Hr /= Hy /= Hs /=.
by case: (_fe_nested_in_cluster _ _).
Qed.

(** C3, amended.  With fixed effects absorbed (group key [a]) and a
    cluster key [c], the groups count as nested in the clusters exactly
    when the two keys are one column or every group lies in exactly one
    cluster; [_set_NK] leaves [K] as it is when they are nested, and adds
    the number of distinct groups to it when they are not. *)
Theorem K_adjusted_unless_nested (self : worker F) (a c : series F)
    (r : Results F) (y_raw : yobj F) (s : F) :
  self_A self = Some a -> self_cluster_id self = Some c ->
  self_results self = Some r ->
  self_y_raw self = Some y_raw -> sst_of y_raw = Ok s ->
  let nested := (name c == name a) || every_group_in_one_cluster c a in
  let N := nrows (values (self_x self)) in
  let K := ncols (values (self_x self)) in
  _fe_nested_in_cluster (Some c) (Some a) = nested
  /\ RegBase_set_NK self
     = Ok (N, if nested then K else (K + size (unique a))%N,
           set_nocons (set_sst r s) true).
Proof.
move=> HA Hc Hr Hy Hs /=.
have E : _fe_nested_in_cluster (Some c) (Some a)
         = (name c == name a) || every_group_in_one_cluster c a.
  case Hn: (name c == name a); first by rewrite /= Hn.
  by rewrite fe_nested_in_clusterE ?Hn.
split=> //.
by rewrite (RegBase_set_NK_absorbedE HA Hr Hy Hs) Hc E.
Qed.

End NestingFacts.

(** ** The caller's dataset *)

Section FrameFacts.
Variable F : realFieldType.
Variable lib : NumLib F.
Variable b : nat.

Notation frames := (@frames F b).

Lemma frames_ret (A : Type) (a : A) (Q : A -> Prop) : Q a -> frames (ret a) Q.
Proof. by move=> Qa h bh; split=> // a' [<-]. Qed.

Lemma frames_raise (A : Type) (e : exn) (Q : A -> Prop) : frames (hraise e) Q.
Proof. by move=> h bh; split. Qed.

Lemma frames_lift (A : Type) (m : result A) (Q : A -> Prop) :
  (forall a, m = Ok a -> Q a) -> frames (lift m) Q.
Proof. by move=> HQ h bh; split. Qed.

Lemma frames_bind (A B : Type) (m : H F A) (k : A -> H F B)
    (Q : A -> Prop) (R : B -> Prop) :
  frames m Q -> (forall a, Q a -> frames (k a) R) -> frames (hbind m k) R.
Proof.
move=> Hm Hk h bh; rewrite /hbind; have [] := Hm h bh.
case: (m h) => [[a|e] h1] /= Ht Hs Hq; last by split.
have [Ht2 Hs2 Hq2] := Hk a (Hq a erefl) h1 (leq_trans bh Hs).
by split=> //; [rewrite Ht2 | exact: leq_trans Hs2].
Qed.

Lemma frames_weaken (A : Type) (m : H F A) (Q R : A -> Prop) :
  (forall a, Q a -> R a) -> frames m Q -> frames m R.
Proof. by move=> QR Hm h bh; have [? ? Hq] := Hm h bh; split=> // a /Hq/QR. Qed.

Lemma frames_alloc (o : obj F) : frames (alloc o) (fun l => b <= l)%N.
Proof.
move=> h bh; rewrite /alloc /=; split.
- rewrite -cats1 take_cat; case: ltnP => // Hle.
  have -> : b = size h by apply/eqP; rewrite eqn_leq bh Hle.
  by rewrite subnn take0 cats0 take_size.
- by rewrite size_rcons.
- by move=> a [<-].
Qed.

Lemma frames_load (l : loc) : frames (load l) (fun _ => True).
Proof. by move=> h bh; split. Qed.

Lemma frames_store (l : loc) (o : obj F) :
  (b <= l)%N -> frames (store l o) (fun _ => True).
Proof.
move=> bl h bh; rewrite /store /=; split=> //; last first.
  by rewrite size_set_nth leq_maxr.
have bs : (b <= size (set_nth (OMask F [::]) h l o))%N.
  by rewrite size_set_nth leq_max bh orbT.
apply: (@eq_from_nth _ (OMask F [::])); first by rewrite !size_takel.
move=> i; rewrite size_takel // => ib.
by rewrite !nth_take // nth_set_nth /= (ltn_eqF (leq_trans ib bl)).
Qed.

Lemma frames_hmapM (A B : Type) (f : A -> H F B) (Q : pred B) (s : seq A) :
  (forall a, frames (f a) Q) -> frames (hmapM f s) (fun bs => all Q bs).
Proof.
move=> Hf; elim: s => [|a s IH] /=; first exact: frames_ret.
apply: frames_bind (Hf a) _ => x Qx.
apply: frames_bind IH _ => xs Qxs.
by apply: frames_ret; rewrite /= Qx.
Qed.

Lemma frames_hfold (A S : Type) (f : S -> A -> H F S) (I : S -> Prop)
    (s0 : S) (l : seq A) :
  I s0 -> (forall s a, I s -> frames (f s a) I) -> frames (hfold f s0 l) I.
Proof.
move=> I0 Hf; elim: l s0 I0 => [|a l IH] s0 I0 /=; first exact: frames_ret.
by apply: frames_bind (Hf s0 a I0) _ => s1 /IH.
Qed.


Lemma frames_liftT (A : Type) (m : result A) : frames (lift m) (fun _ => True).
Proof. exact: frames_lift. Qed.

Lemma frames_load_frame (l : loc) : frames (load_frame l) (fun _ => True).
Proof.
rewrite /load_frame; apply: frames_bind (frames_load l) _ => o _.
by case: o => *; (exact: frames_ret || exact: frames_raise).
Qed.

Lemma frames_load_mask (l : loc) : frames (load_mask l) (fun _ => True).
Proof.
rewrite /load_mask; apply: frames_bind (frames_load l) _ => o _.
by case: o => *; (exact: frames_ret || exact: frames_raise).
Qed.

Lemma frames_load_series (l : loc) : frames (load_series l) (fun _ => True).
Proof.
rewrite /load_series; apply: frames_bind (frames_load l) _ => o _.
by case: o => *; (exact: frames_ret || exact: frames_raise).
Qed.

Lemma frames_load_DataFrame (l : loc) :
  frames (load_DataFrame l) (fun _ => True).
Proof.
rewrite /load_DataFrame; apply: frames_bind (frames_load l) _ => o _.
by case: o => *; (exact: frames_ret || exact: frames_raise).
Qed.

Lemma frames_load_y (l : loc) : frames (load_y l) (fun _ => True).
Proof.
rewrite /load_y; apply: frames_bind (frames_load l) _ => o _.
by case: o => *; (exact: frames_ret || exact: frames_raise).
Qed.

Lemma frames_flag_sample (df : loc) (args : seq colspec) :
  frames (flag_sample df args) (fun l => b <= l)%N.
Proof.
rewrite /flag_sample.
apply: frames_bind (frames_load_frame _) _ => t _.
apply: frames_bind (frames_liftT _) _ => names _.
apply: frames_bind (frames_liftT _) _ => cs _.
exact: frames_alloc.
Qed.

Lemma frames_flag_nonsingletons (df : loc) (avar : string) (sample : loc) :
  frames (flag_nonsingletons df avar sample) (fun l => b <= l)%N.
Proof.
rewrite /flag_nonsingletons.
apply: frames_bind (frames_load_frame _) _ => t _.
apply: frames_bind (frames_load_mask _) _ => smp _.
apply: frames_bind (frames_liftT _) _ => a _.
exact: frames_alloc.
Qed.

Lemma frames_iand (sample other : loc) :
  (b <= sample)%N -> frames (iand sample other) (fun _ => True).
Proof.
move=> bs; rewrite /iand.
apply: frames_bind (frames_load_mask _) _ => m1 _.
apply: frames_bind (frames_load_mask _) _ => m2 _.
exact: frames_store.
Qed.

Lemma frames_loc_copy_reset (df sample : loc) (nm : colspec) :
  frames (loc_copy_reset df sample nm) (ofresh b).
Proof.
case: nm => [|s|ss|] /=; [exact: frames_ret | | | exact: frames_raise].
- apply: frames_bind (frames_load_frame _) _ => t _.
  apply: frames_bind (frames_load_mask _) _ => smp _.
  apply: frames_bind (frames_liftT _) _ => c _.
  apply: frames_bind (frames_alloc _) _ => l1 _.
  apply: frames_bind (frames_load _) _ => o1 _.
  apply: frames_bind (frames_alloc _) _ => l2 _.
  apply: frames_bind (frames_load _) _ => o2 _.
  apply: frames_bind (frames_alloc _) _ => l3 bl3.
  exact: frames_ret.
- apply: frames_bind (frames_load_frame _) _ => t _.
  apply: frames_bind (frames_load_mask _) _ => smp _.
  apply: frames_bind (frames_liftT _) _ => c _.
  apply: frames_bind (frames_alloc _) _ => l1 _.
  apply: frames_bind (frames_load _) _ => o1 _.
  apply: frames_bind (frames_alloc _) _ => l2 _.
  apply: frames_bind (frames_load _) _ => o2 _.
  apply: frames_bind (frames_alloc _) _ => l3 bl3.
  exact: frames_ret.
Qed.

Lemma frames_set_sample (df sample : loc) (names : seq colspec) :
  frames (set_sample df sample names) (fun vs => all (ofresh b) vs).
Proof. by apply: frames_hmapM => nm; exact: frames_loc_copy_reset. Qed.

Lemma dfresh_zip (labels : seq string) (vs : seq (option loc)) :
  all (ofresh b) vs -> dfresh b (zip labels vs).
Proof.
elim: labels vs => [|l ls IH] [|v vs] //= /andP[-> /IH].
by rewrite /dfresh.
Qed.

Lemma dfresh_get (d : attrs) (k : string) (a : option loc) :
  dfresh b d -> dict_get d k = Ok a -> ofresh b a.
Proof.
elim: d => [|[k' v] d IH] //= /andP[Hv /IH{}IH].
by case: ifP => // _ [<-].
Qed.

Lemma dfresh_set (d : attrs) (k : string) (v : option loc) :
  dfresh b d -> ofresh b v -> dfresh b (setattr d k v).
Proof.
move=> Hd Hv; rewrite /dfresh /setattr /= Hv /=.
by apply/allP => p; rewrite mem_filter => /andP[_ /(allP Hd)].
Qed.

Lemma frames_getattr (d : attrs) (k : string) :
  dfresh b d -> frames (getattr d k) (ofresh b).
Proof. by move=> Hd; apply: frames_lift => a; exact: dfresh_get. Qed.

Lemma frames_deref (a : option loc) (meth : string) :
  ofresh b a -> frames (deref a meth) (fun l => b <= l)%N.
Proof. by case: a => [l|] H; [exact: frames_ret | exact: frames_raise]. Qed.

Lemma frames_force_df (a : option loc) :
  ofresh b a -> frames (force_df a) (ofresh b).
Proof.
move=> Ha; rewrite /force_df.
apply: frames_bind (frames_deref _ Ha) _ => l bl.
apply: frames_bind (frames_load _) _ => o _.
case: o => *; try exact: frames_ret.
by apply: frames_bind (frames_alloc _) _ => l' bl'; exact: frames_ret.
Qed.

Lemma frames_squeeze (a : option loc) :
  ofresh b a -> frames (squeeze a) (ofresh b).
Proof.
move=> Ha; rewrite /squeeze.
apply: frames_bind (frames_deref _ Ha) _ => l bl.
apply: frames_bind (frames_load_series _) _ => s _.
by apply: frames_bind (frames_alloc _) _ => l' bl'; exact: frames_ret.
Qed.

Lemma frames_var_astype (d : attrs) (var : string) :
  dfresh b d -> frames (var_astype d var) (dfresh b).
Proof.
move=> Hd; rewrite /var_astype.
apply: frames_bind (frames_getattr _ Hd) _ => a Ha.
apply: frames_bind (frames_deref _ Ha) _ => l bl.
apply: frames_bind (frames_load _) _ => o _.
apply: frames_bind (frames_liftT _) _ => o' _.
apply: frames_bind (frames_alloc _) _ => l' bl'.
by apply: frames_ret; exact: dfresh_set.
Qed.

Lemma frames_derefT (a : option loc) (meth : string) :
  frames (deref a meth) (fun _ => True).
Proof. by case: a => [l|]; [exact: frames_ret | exact: frames_raise]. Qed.

Lemma frames_demean (A df : option loc) :
  ofresh b df -> frames (_demean A df) (ofresh b).
Proof.
case: df => [l|] bl /=; last exact: frames_ret.
apply: frames_bind (frames_load _) _ => o _.
case: o => [t|s|nm c|m|d|[c|v]]; try exact: frames_raise.
- case: ifP => _; first exact: frames_ret.
  apply: frames_bind (frames_derefT _ _) _ => la _.
  apply: frames_bind (frames_load_series _) _ => a _.
  case: ifP => _; last exact: frames_raise.
  by apply: frames_bind (frames_alloc _) _ => l' bl'; exact: frames_ret.
- case: ifP => _; first exact: frames_ret.
  apply: frames_bind (frames_derefT _ _) _ => la _.
  apply: frames_bind (frames_load_series _) _ => a _.
  case: ifP => _; last exact: frames_raise.
  by apply: frames_bind (frames_alloc _) _ => l' bl'; exact: frames_ret.
Qed.

Lemma frames_demean_sample (c : klass) (d : attrs) :
  dfresh b d -> frames (_demean_sample c d) (dfresh b).
Proof.
move=> Hd; rewrite /_demean_sample.
apply: frames_bind (frames_getattr _ Hd) _ => y Hy.
apply: frames_bind (frames_deref _ Hy) _ => ly bly.
apply: frames_bind (frames_load _) _ => oy _.
apply: frames_bind (frames_alloc _) _ => y_raw by_raw.
have Hd1 : dfresh b (setattr d "y_raw" (Some y_raw)) by exact: dfresh_set.
apply: frames_bind (frames_getattr _ Hd1) _ => A HA.
apply: (frames_hfold (I := dfresh b)) => // d' var Hd'.
apply: frames_bind (frames_getattr _ Hd') _ => v Hv.
apply: frames_bind (frames_demean _ Hv) _ => v' Hv'.
by apply: frames_ret; exact: dfresh_set.
Qed.

Lemma frames_add_constant (c : klass) (d : attrs) :
  dfresh b d -> frames (add_constant c d) (dfresh b).
Proof.
move=> Hd; rewrite /add_constant.
apply: frames_bind (frames_getattr _ Hd) _ => y Hy.
apply: frames_bind (frames_deref _ Hy) _ => ly bly.
apply: frames_bind (frames_load_y _) _ => [[cy|yv]] _; first exact: frames_raise.
apply: frames_bind (frames_getattr _ Hd) _ => x Hx.
apply: frames_bind (frames_deref _ Hx) _ => lx blx.
apply: frames_bind (frames_load_DataFrame _) _ => xd _.
case: ifP => _.
  apply: frames_bind (frames_alloc _) _ => lx' blx'.
  by apply: frames_ret; exact: dfresh_set.
apply: frames_bind (frames_liftT _) _ => xd' _.
apply: frames_bind (frames_store _ blx) _ => _ _.
by apply: frames_ret; exact: dfresh_set.
Qed.

Lemma frames_weight_sample (c : klass) (d : attrs) :
  dfresh b d -> frames (_weight_sample lib c d) (dfresh b).
Proof.
move=> Hd; rewrite /_weight_sample.
apply: frames_bind (frames_getattr _ Hd) _ => awt Hawt.
apply: frames_bind (frames_deref _ Hawt) _ => law blaw.
apply: frames_bind (frames_load_series _) _ => aw _.
apply: frames_bind (frames_liftT _) _ => row_wt _.
apply: (frames_hfold (I := dfresh b)) => // d' var Hd'.
apply: frames_bind (frames_getattr _ Hd') _ => v Hv.
apply: frames_bind (frames_deref _ Hv) _ => l bl.
apply: frames_bind (frames_load _) _ => o _.
apply: (frames_bind (Q := fun _ => True)); last first.
  move=> o' _; apply: frames_bind (frames_alloc _) _ => l' bl'.
  by apply: frames_ret; exact: dfresh_set.
case: o => [t|s|nm cc|m|xd|[cc|yv]]; try exact: frames_raise.
  by apply: frames_bind (frames_liftT _) _ => m _; exact: frames_ret.
by apply: frames_bind (frames_liftT _) _ => m _; exact: frames_ret.
Qed.

Lemma frames_load_opt (A : Type) (ld : loc -> H F A) (a : option loc) :
  (forall l, frames (ld l) (fun _ => True)) ->
  frames (load_opt ld a) (fun _ => True).
Proof.
move=> Hld; case: a => [l|] /=; last exact: frames_ret.
by apply: frames_bind (Hld l) _ => v _; exact: frames_ret.
Qed.

Lemma frames_read_worker (self : init F) (sample : loc) (d : attrs) :
  frames (read_worker self sample d) (fun _ => True).
Proof.
rewrite /read_worker.
apply: frames_bind (frames_load_mask _) _ => smp _.
apply: frames_bind (frames_liftT _) _ => y _.
apply: frames_bind (frames_derefT _ _) _ => ly _.
apply: frames_bind (frames_load_y _) _ => yo _.
apply: frames_bind (frames_liftT _) _ => x _.
apply: frames_bind (frames_derefT _ _) _ => lx _.
apply: frames_bind (frames_load_DataFrame _) _ => xd _.
apply: frames_bind (frames_load_opt _ frames_load_DataFrame) _ => zd _.
apply: frames_bind (frames_load_opt _ frames_load_DataFrame) _ => wd _.
apply: frames_bind (frames_load_opt _ frames_load_series) _ => a _.
apply: frames_bind (frames_load_opt _ frames_load_series) _ => cl _.
apply: frames_bind (frames_load_opt _ frames_load_series) _ => sx _.
apply: frames_bind (frames_load_opt _ frames_load_series) _ => sy _.
apply: frames_bind (frames_load_opt _ frames_load_series) _ => aw _.
apply: frames_bind (frames_load_opt _ frames_load_y) _ => yr _.
exact: frames_ret.
Qed.

Lemma frames_RegBase_set_sample (self : init F) :
  frames (RegBase_set_sample lib self) (fun _ => True).
Proof.
rewrite /RegBase_set_sample.
apply: frames_bind (frames_flag_sample _ _) _ => sample bsample.
apply: (frames_bind (Q := fun _ => True)).
  case: ifP => _; last exact: frames_ret.
  apply: frames_bind (frames_flag_nonsingletons _ _ _) _ => ns _.
  exact: frames_iand.
move=> _ _.
apply: frames_bind (frames_set_sample _ _ _) _ => sample_vars Hvs.
have Hd := dfresh_zip (sample_store_labels (cls self)) Hvs.
apply: frames_bind (frames_getattr _ Hd) _ => x Hx.
apply: frames_bind (frames_force_df Hx) _ => x' Hx'.
have Hd1 := dfresh_set "x" Hd Hx'.
apply: frames_bind (frames_getattr _ Hd1) _ => y Hy.
apply: frames_bind (frames_squeeze Hy) _ => y' Hy'.
have Hd2 := dfresh_set "y" Hd1 Hy'.
apply: (frames_bind (Q := dfresh b)).
  by apply: (frames_hfold (I := dfresh b)) => // d' var; exact: frames_var_astype.
move=> d3 Hd3.
apply: (frames_bind (Q := dfresh b)).
  case: (a_name _) => [a|]; first exact: frames_demean_sample.
  by case: ifP => _; [exact: frames_add_constant | exact: frames_ret].
move=> d4 Hd4.
apply: frames_bind (frames_getattr _ Hd4) _ => awt _.
apply: (frames_bind (Q := dfresh b)).
  by case: awt => [a|]; [exact: frames_weight_sample | exact: frames_ret].
move=> d5 _; exact: frames_read_worker.
Qed.

Lemma frames_main (self : init F) : frames (main lib self) (fun _ => True).
Proof.
rewrite /main; apply: frames_bind (frames_RegBase_set_sample _) _ => w _.
exact: frames_liftT.
Qed.

Lemma frames_reg (k : call F) : frames (reg lib k) (fun _ => True).
Proof.
rewrite /reg; apply: frames_bind (frames_liftT _) _ => self _.
exact: frames_main.
Qed.

Lemma frames_ivreg (k : call F) : frames (ivreg lib k) (fun _ => True).
Proof.
rewrite /ivreg; apply: frames_bind (frames_liftT _) _ => self _.
exact: frames_main.
Qed.

End FrameFacts.

Section DatasetFacts.
Variable F : realFieldType.
Variable lib : NumLib F.

(** C9. A call of [reg] or [ivreg] leaves the caller's dataset as it was:
    every object the store held before the call, the dataset among them,
    is the same after it, whether the call returns or raises.  The sample
    builder works on the copies [set_sample] makes; the one update in
    place, [self.x['_cons'] = ...], writes to such a copy. *)
Theorem dataset_unchanged (k : call F) (h : heap F) :
  (df k < size h)%N ->
  [/\ take (size h) (reg lib k h).2 = h,
      take (size h) (ivreg lib k h).2 = h,
      (load (df k) (reg lib k h).2).1 = (load (df k) h).1
    & (load (df k) (ivreg lib k h).2).1 = (load (df k) h).1].
Proof.
move=> dfh.
have [Hr _ _] := @frames_reg F lib (size h) k h (leqnn _).
have [Hi _ _] := @frames_ivreg F lib (size h) k h (leqnn _).
rewrite take_size in Hr Hi; split=> //; rewrite /load /=.
  by rewrite -[in RHS]Hr nth_take.
by rewrite -[in RHS]Hi nth_take.
Qed.

End DatasetFacts.

(** C3 as worded fails on [worker_fe]: no cluster "maps to exactly one
    group" (the one state holds two counties), so the specification's
    test says "not nested" and asks for [K = 1 + 2]; the code finds the
    groups nested and leaves [K = 1]. *)
Lemma spec_nested_counterexample :
  spec_nested cl_state fe_county = false
  /\ size (unique fe_county) = 2%N
  /\ _fe_nested_in_cluster (Some cl_state) (Some fe_county) = true
  /\ exists r, RegBase_set_NK worker_fe = Ok (2%N, 1%N, r).
Proof.
split; first by [].
split; first by [].
split; first by [].
have := @sst_ofE rat 2 ones21 isT.
case E: (sst_of _) => [s|] // _.
rewrite (@RegBase_set_NK_absorbedE rat worker_fe fe_county results_yx_vce
           (YSeries (Vec ones21)) s erefl erefl erefl E).
by eexists.
Qed.

(** The hypotheses of the amended C3 hold of [worker_fe]. *)
Lemma K_adjusted_unless_nested_witness :
  exists s,
    sst_of (YSeries (Vec ones21)) = Ok s
    /\ RegBase_set_NK worker_fe
       = Ok (2%N, 1%N, set_nocons (set_sst results_yx_vce s) true).
Proof.
have := @sst_ofE rat 2 ones21 isT.
case E: (sst_of _) => [s|] // _; exists s; split=> //.
have [_ ->] := @K_adjusted_unless_nested rat worker_fe fe_county cl_state
                 results_yx_vce (YSeries (Vec ones21)) s
                 erefl erefl erefl erefl E.
by [].
Defined.

Lemma get_vce_yx : get_vce ratlib worker_yx_fitted = Ok worker_yx_vce.
Proof.
by rewrite (@get_vce_homoskE rat ratlib worker_yx_fitted 2 1 ones21 ones21
              [:: "x"] results_yx_fitted (ols_beta ones21 ones21)
              (invmx (ones21^T *m ones21))).
Qed.

(** [get_vce] returns on [worker_yx_fitted], and C5 applies to what it
    stores. *)
Lemma vce_symmetric_witness :
  tr (values vce_yx) = values vce_yx
  /\ forall self2 r2 v2,
       set_dof worker_yx_vce = Ok self2 ->
       self_results self2 = Some r2 -> vce r2 = Some v2 ->
       tr (values v2) = values v2.
Proof.
apply: (@vce_symmetric rat ratlib worker_yx_fitted worker_yx_vce
          results_yx_vce vce_yx).
- exact: get_vce_yx.
- reflexivity.
- reflexivity.
Defined.



(** C9 at [reg(df, 'y', 'x')] on the store that holds [table_yx]. *)
Lemma dataset_unchanged_witness :
  [/\ take 1 (reg ratlib call_yx heap_yx).2 = heap_yx,
      take 1 (ivreg ratlib call_yx heap_yx).2 = heap_yx,
      (load 0 (reg ratlib call_yx heap_yx).2).1 = Ok (ORaw table_yx)
    & (load 0 (ivreg ratlib call_yx heap_yx).2).1 = Ok (ORaw table_yx)].
Proof. exact (@dataset_unchanged rat ratlib call_yx heap_yx isT). Defined.

(** ** F test on one column, in equality mode *)

Section FtestFacts.
Variable F : realFieldType.
Variable lib : NumLib F.

Lemma contrast_one_equal : contrast F 1 true = Ok (0%N, no_contrast F).
Proof.
by rewrite /contrast /no_contrast; congr (Ok (_, Arr _)); rewrite flatmx0.
Qed.

Lemma positions_one (labels : seq string) (c : string) :
  c \in labels -> positions labels [:: c] = Ok [:: seq.index c labels].
Proof. by rewrite /positions /= => ->. Qed.

(** X1.  [Ftest] with one column name and [equal=True], on results that hold
    a VCE and a coefficient under that name: the test matrix has no row,
    nothing is refused, and [f_test] is run on it.  What comes out is up
    to [matrix_rank] on that matrix: when it returns 0, the F statistic
    is the quotient 0/0, which is no finite number. *)
Theorem Ftest_one_column_equal (res : Results F) (c : string)
    (v : DataFrame F) (d : int) :
  vce res = Some v -> c \in columns v -> c \in index (beta res) ->
  df_r res = Ok d ->
  contrast F 1 true = Ok (0%N, no_contrast F)
  /\ Ftest lib res [:: c] true
     = match matrix_rank lib (no_contrast F) with
       | Ok 0%N => Raise NonFinite
       | Ok df_n => Ok (0, 1 - f_cdf lib 0 df_n d)
       | Raise e => Raise e
       end.
Proof.
move=> Hv Hc Hb Hd; split; first exact: contrast_one_equal.
rewrite /Ftest Hv /= /loc_square (positions_one Hc) /=.
rewrite /loc_vector (positions_one Hb) /= Hd /=.
have -> : \matrix_(i < 0, j < 1)
            (if (j == i :> nat) then 1
             else if (j == i.+1 :> nat) then -1 else 0 : F) = 0.
  by rewrite flatmx0.
have U (A : 'M[F]_0) : A \in unitmx by rewrite unitmxE det_mx00 unitr1.
rewrite /f_test /no_contrast dotvE /= /vzeros vsubE /= /as_column /=.
rewrite dotE /= trE dotE /= la_invE U /=.
case: (matrix_rank _ _) => [df_n|e] //=.
rewrite dotE /= dotE /= /entry /= !insubT /=.
rewrite [_ *m invmx _]thinmx0 mul0mx mxE /fdiv.
case: df_n => [|n] /=; first by rewrite eqxx.
by rewrite pnatr_eq0 /= mul0r.
Qed.

End FtestFacts.

(** [results.Ftest('x', equal=True)] on [results_yx_dof]. *)
Lemma Ftest_one_column_equal_witness :
  contrast rat 1 true = Ok (0%N, no_contrast rat)
  /\ Ftest ratlib results_yx_dof [:: "x"] true
     = match matrix_rank ratlib (no_contrast rat) with
       | Ok 0%N => Raise NonFinite
       | Ok df_n => Ok (0, 1 - f_cdf ratlib 0 df_n 1)
       | Raise e => Raise e
       end.
Proof.
exact (@Ftest_one_column_equal rat ratlib results_yx_dof "x" vce_yx 1
         erefl isT isT erefl).
Defined.

(** ** What the later stages leave alone *)

Section KeptFacts.
Variable F : realFieldType.
Variable lib : NumLib F.
Variable T : Type.
Variable p : Results F -> T.
Hypothesis p_add_vce_stats :
  forall r v yh rs s, p (add_vce_stats r v yh rs s) = p r.
Hypothesis p_set_nocons : forall r b, p (set_nocons r b) = p r.
Hypothesis p_add_g : forall r g, p (add_g r g) = p r.
Hypothesis p_add_dof_stats :
  forall r n k d c, p (add_dof_stats r n k d c) = p r.
Hypothesis p_set_vce : forall r v, p (set_vce r v) = p r.
Hypothesis p_add_inference :
  forall r s t pv lo hi, p (add_inference r s t pv lo hi) = p r.

Lemma get_vce_kept (self self1 : worker F) :
  get_vce lib self = Ok self1 ->
  omap p (self_results self1) = omap p (self_results self).
Proof.
rewrite /get_vce.
case: (_prep_inference_mats self) => //= -[Xi Xr].
case: (self_results self) => //= r0.
case: (residuals _ _ _) => //= -[yh rs].
case: (raw_vce _ _ _ _ _) => //= raw.
case: (symmetrize raw) => [s|] //=.
by case: (_wrapSigma _ _) => //= v [<-] /=; rewrite p_add_vce_stats.
Qed.

Lemma inference_kept (self self1 : worker F) :
  inference lib self = Ok self1 ->
  omap p (self_results self1) = omap p (self_results self).
Proof.
rewrite /inference; case: (self_results self) => //= r.
case: (attr (vce r) _) => //= v; case: (attr (df_t r) _) => //= t.
case: (mapM _ _) => //= se; case: ifP => // _.
by case: (mapM _ _) => //= ts [<-] /=; rewrite p_add_inference.
Qed.

Lemma set_dof_after_NK (self self1 : worker F) :
  set_dof self = Ok self1 ->
  exists N K r', _set_NK self = Ok (N, K, r')
                 /\ omap p (self_results self1) = Some (p r').
Proof.
rewrite /set_dof.
case E: (_set_NK self) => [[[N K] r']|] //=.
case: (dof_of _ _ _ _) => //= -[[df c] g].
case: (attr _ _) => //= v [<-] /=.
exists N, K, r'; split=> //.
by rewrite p_set_vce p_add_dof_stats; case: g => [g|] //; rewrite p_add_g.
Qed.


Hypothesis p_set_sst : forall r s, p (set_sst r s) = p r.

Lemma set_NK_kept (self : worker F) N K (r' : Results F) :
  _set_NK self = Ok (N, K, r') ->
  omap p (self_results self) = Some (p r').
Proof.
have H n k r0 : RegBase_set_NK self = Ok (n, k, r0) ->
                omap p (self_results self) = Some (p r0).
  rewrite /RegBase_set_NK; case: (shape _) => n' k'.
  case: (self_A self) => [a|]; case: (self_results self) => //= r.
    case: (attr _ _) => //= yr; case: (sst_of yr) => //= s [_ _ <-].
    by rewrite p_set_nocons p_set_sst.
  by case=> _ _ <-; rewrite p_set_nocons.
rewrite /_set_NK /IVReg_set_NK; case: (cls _); first exact: H.
by case E: (RegBase_set_NK self) => [[[n k] r0]|] //= [_ _ <-]; exact: H E.
Qed.

(** What [p] reads in the results of a call is what the stage that wrote
    them last has left, when no later stage writes it. *)
Lemma fit_kept (self self1 : worker F) (r : Results F) :
  estimate lib self = Ok self1 -> fit lib self = Ok r ->
  omap p (self_results self1) = Some (p r).
Proof.
rewrite /fit => -> /=.
case E2: (get_vce lib self1) => [self2|] //=.
case E3: (set_dof self2) => [self3|] //=.
case E4: (inference lib self3) => [self4|] //=.
have [N [K [r' [ENK K3]]]] := set_dof_after_NK E3.
rewrite -(get_vce_kept E2) (set_NK_kept ENK) -K3 -(inference_kept E4).
by case: (self_results self4) => //= r4 [<-].
Qed.

End KeptFacts.

(** ** Sums of squares *)

Section NormFacts.
Variable F : realFieldType.





End NormFacts.

(** ** R-squared *)

Section R2Facts.
Variable F : realFieldType.
Variable lib : NumLib F.






Lemma IVReg_estimate_r2 (self self1 : worker F) :
  IVReg_estimate lib self = Ok self1 ->
  omap (fun r => (_r2 r, _r2_a r)) (self_results self1)
  = Some (Some None, Some None).
Proof.
rewrite /IVReg_estimate.
case: (attr (self_w self) _) => //= w; case: (attr (self_z self) _) => //= z.
case: (iv_method _ == "liml"); case: (iv_method _ == "2sls") => //.
- case: (_first_stage _ _ _) => [[Xhat Xtrue]|] //=.
  case: (fitguts _ _) => [[b xi]|] //=.
  by case: (sst_of _) => //= s [<-].
- case: (_liml _ _ _ _ _ _ _) => [[[[[b xi] Xhat] Xtrue] kappa]|] //=.
  by case: (sst_of _) => //= s [<-].
- case: (_first_stage _ _ _) => [[Xhat Xtrue]|] //=.
  case: (fitguts _ _) => [[b xi]|] //=.
  by case: (sst_of _) => //= s [<-].
Qed.

(** X5.  The results of an IV call that returns report no R-squared: [r2] and
    [r2_a] are the [nan] that [IVReg.estimate] has stored. *)
Theorem ivreg_has_no_r2 (k : call F) (h h' : heap F) (r : Results F) :
  ivreg lib k h = (Ok r, h') ->
  Results_r2 r = Ok None /\ Results_r2_a r = Ok None.
Proof.
rewrite ivreg_as_fit.
case Eb: (build_sample lib IVReg k h) => [[w|e] h1] // [Hf _].
have [Hc _] := build_sample_ini Eb.
move: (Hf); rewrite {1}/fit; case Ee: (estimate lib w) => [w1|] //= _.
have := @fit_kept F lib _ (fun r => (_r2 r, _r2_a r))
          (fun _ _ _ _ _ => erefl) (fun _ _ => erefl) (fun _ _ => erefl)
          (fun _ _ _ _ _ => erefl) (fun _ _ => erefl)
          (fun _ _ _ _ _ _ => erefl) (fun _ _ => erefl) w w1 r Ee Hf.
move: Ee; rewrite /estimate Hc => /IVReg_estimate_r2 -> [H1 H2].
by rewrite /Results_r2 /Results_r2_a -H1 -H2.
Qed.

End R2Facts.

(** ** Inference Engine *)

Section InferenceFacts.
Variable F : realFieldType.
Variable lib : NumLib F.



End InferenceFacts.

(** ** Degenerate samples *)

Section EdgeFacts.
Variable F : realFieldType.
Variable lib : NumLib F.

(** X7.  [set_dof] on a saturated model ([N = K]) with the default, robust,
    HC1 or cluster VCE, or on a cluster VCE with one cluster: the
    correction divides by zero, and nothing is returned. *)
Theorem set_dof_zero_division (self : worker F) (N K : nat)
    (r' : Results F) :
  _set_NK self = Ok (N, K, r') ->
  (self_vce_type (ini self) \in [:: None; Some "robust"; Some "hc1"]
   /\ N = K)
  \/ (exists cl,
        [/\ self_vce_type (ini self) = Some "cluster",
            self_cluster_id self = Some cl
          & N = K \/ size (value_counts cl) = 1%N]) ->
  set_dof self = Raise ZeroDivisionError.
Proof.
move=> E H; rewrite /set_dof E /= /dof_of.
case: H => [[Hv ->]|[cl [Hv Hcl H]]].
  by rewrite Hv /df_std subrr eqxx.
rewrite Hv /= Hcl /df_cluster /=.
by case: H => [->|->]; rewrite subrr eqxx ?orbT.
Qed.

(** X8.  [Regression.estimate] on an empty sample with at least one
    regressor: [X'X] is the zero matrix, and [la.inv] refuses it. *)
Theorem estimate_empty_sample (self : worker F) k
    (X : 'M[F]_(0, k.+1)) (y : 'cV[F]_0) (cols : seq string) :
  cls (ini self) = Regression ->
  self_y self = YSeries (Vec y) -> self_x self = DF cols (Arr X) ->
  estimate lib self = Raise LinAlgError.
Proof.
move=> Hc Hy Hx; rewrite /estimate Hc /Regression_estimate Hy Hx.
rewrite fitguts_singular //.
by rewrite [X]flatmx0 mulmx0 unitmxE det0 unitr0.
Qed.

End EdgeFacts.

(** ** Sample Builder: the mask *)

Section SampleFacts.
Variable F : realFieldType.
Variable lib : NumLib F.

Lemma mask_all_isSome (m : seq bool) (c : seq (cell F)) :
  (forall i, nth false m i -> isSome (nth None c i)) ->
  all isSome (mask m c).
Proof.
elim: m c => [|b m IH] [|x c] //= H.
have Hc : all isSome (mask m c) by apply: IH => i; exact: (H i.+1).
by case: b H => //= H; rewrite Hc andbT; exact: (H 0%N).
Qed.

(** X9.  What [flag_sample] flags: the mask has one entry for each row of the
    table, and cutting any of the listed columns down to the flagged rows
    leaves no missing cell. *)
Theorem sample_rows_are_complete (h h' : heap F) (df l : loc)
    (args : seq colspec) (t : frame F) :
  nth (OMask F [::]) h df = ORaw t ->
  flag_sample df args h = (Ok l, h') ->
  exists names cs m,
    [/\ varlist args = Ok names, getitem_cols t names = Ok cs,
        l = size h /\ h' = rcons h (OMask F m), size m = rows t
      & all (fun c => all isSome (mask m c)) cs].
Proof.
move=> Ht; rewrite /flag_sample /hbind /load_frame /hbind /load /= Ht /=.
rewrite /lift; case En: (varlist args) => [names|] //=.
case Ec: (getitem_cols t names) => [cs|] //=.
rewrite /alloc => -[<- <-].
exists names, cs,
  [seq all (fun c : seq (cell F) => isSome (nth None c i)) cs
  | i <- iota 0 (rows t)].
split=> //; first by rewrite size_map size_iota.
apply/allP => c Hc; apply: mask_all_isSome => i.
case: (ltnP i (rows t)) => Hi; last first.
  by rewrite nth_default // size_map size_iota.
rewrite (nth_map 0%N) ?size_iota // nth_iota // add0n.
by move/allP/(_ c Hc).
Qed.

Lemma count_mask_and (g : cell F -> bool) (k : cell F) (smp : seq bool)
    (a : seq (cell F)) :
  g k ->
  count_mem k (mask [seq p.1 && p.2 | p <- zip smp [seq g x | x <- a]] a)
  = count_mem k (mask smp a).
Proof.
move=> gk; elim: smp a => [|s smp IH] [|x a] //=.
case: s => /=; last exact: IH.
case gx: (g x) => /=; first by rewrite IH.
rewrite IH; case: eqP => // e.
by move: gx; rewrite e gk.
Qed.

(** X10.  [nosingles]: once [sample &= flag_nonsingletons(df, a_name, sample)]
    has run, the mask has kept its length, has gained no row, and every
    row it keeps shares its group with another row it keeps. *)
Theorem nosingles_leaves_no_singleton (h : heap F) (df sample : loc)
    (avar : string) (t : frame F) (smp : seq bool) (a : seq (cell F)) :
  (sample < size h)%N ->
  nth (OMask F [::]) h df = ORaw t ->
  nth (OMask F [::]) h sample = OMask F smp ->
  dict_get (cols t) avar = Ok a -> size smp = size a ->
  let m := hbind (flag_nonsingletons df avar sample) (iand sample) in
  exists smp',
    [/\ (m h).1 = Ok tt,
        nth (OMask F [::]) (m h).2 sample = OMask F smp',
        size smp' = size smp,
        forall i, nth false smp' i -> nth false smp i
      & forall i, nth false smp' i ->
          (1 < count_mem (nth None a i) (mask smp' a))%N].
Proof.
move=> Hs Ht Hm Ha Hsz /=.
rewrite /hbind /flag_nonsingletons /hbind /load_frame /hbind /load /= Ht /=.
rewrite /load_mask /hbind /load /= Hm /= /lift Ha /= /alloc /=.
rewrite /iand /hbind /load_mask /hbind /load /= nth_rcons Hs Hm /=.
rewrite nth_rcons ltnn eqxx /= /store /= nth_set_nth /= eqxx.
set g := fun key : cell F =>
  if key is Some _ then (1 < count_mem key (mask smp a))%N else false.
set smp' := [seq p.1 && p.2 | p <- zip smp [seq g x | x <- a]].
have Hsz' : size smp' = size smp.
  by rewrite size_map size_zip size_map Hsz minnn.
have Hn i : nth false smp' i -> nth false smp i && g (nth None a i).
  case: (ltnP i (size smp)) => Hi; last by rewrite nth_default // Hsz'.
  rewrite (nth_map (false, false)) ?size_zip ?size_map ?Hsz ?minnn -?Hsz //.
  rewrite nth_zip ?size_map //= (nth_map None) -?Hsz //.
exists smp'; split=> // i /Hn /andP[] // _ Hg.
by rewrite count_mask_and //; move: Hg; rewrite /g; case: (nth None a i).
Qed.

End SampleFacts.

(** ** Sample Builder: the within transformation *)

Section DemeanFacts.
Variable F : realFieldType.




End DemeanFacts.

(** ** VCE Engine: clusters, leverages, kernels *)

Section ClusterFacts.
Variable F : realFieldType.
Variable lib : NumLib F.

(** X12.  The cluster VCE when every row is a cluster of its own (no key is
    missing, no key occurs twice) is the robust VCE: both before the
    degrees-of-freedom correction. *)
Theorem cluster_of_singletons_is_robust (cl : series F) k
    (X : 'M[F]_(size (cells cl), k)) (e : 'cV[F]_(size (cells cl)))
    (xi : ndarray F) (cols : seq string) :
  uniq (cells cl) -> all isSome (cells cl) ->
  vce_cluster xi (Vec e) (DF cols (Arr X)) (Some cl)
  = vce_robust xi (Vec e) (DF cols (Arr X)).
Proof.
move=> Hu Hs; rewrite /vce_cluster /vce_robust /= mul_rowsE /= eqxx Hs /=.
rewrite (undup_id Hu).
set R := \matrix_(i0, j0) (X i0 j0 * e i0 0).
have -> : \matrix_(gi < size (cells cl), j < k)
            \sum_(i < size (cells cl)
                  | nth None (cells cl) i == nth None (cells cl) gi) R i j
          = R; last by [].
apply/matrixP => i j; rewrite mxE (big_pred1 i) // => i' /=.
by rewrite nth_uniq.
Qed.

End ClusterFacts.

Section LeverageFacts.
Variable F : realFieldType.
Variable lib : NumLib F.




End LeverageFacts.

Section KernelFacts.
Variable F : realFieldType.
Variable lib : NumLib F.

(** X16.  A kernel name other than ['unif'] and ['tria'] is refused nowhere:
    [_shac_kernels] hands back no function, and [_shac_weights] fails
    with a [TypeError] when it calls it for the first row. *)
Theorem shac_unknown_kernel (xu : ndarray F) (lon lat : option (series F))
    (kernel band : option (pyval F)) (lon_arr lat_arr : seq F) :
  (if kernel is Some (PStr s) then s \notin [:: "unif"; "tria"] else true) ->
  squeeze_values lon = Ok lon_arr -> squeeze_values lat = Ok lat_arr ->
  size lon_arr = nrows xu -> size lat_arr = nrows xu ->
  (0 < nrows xu)%N ->
  _shac_kernels kernel band = None
  /\ _shac_weights lib xu lon lat kernel band = Raise TypeError.
Proof.
move=> Hk Hlon Hlat Hs1 Hs2 n0.
have HN : _shac_kernels kernel band = None.
  case: kernel Hk => [[s|x]|] //=; rewrite !inE negb_or.
  by case/andP=> /negbTE -> /negbTE ->.
split=> //; case: xu Hs1 Hs2 n0 => [[|n] k M] //= Hs1 Hs2 _.
by rewrite /_shac_weights Hlon Hlat /= Hs1 Hs2 eqxx /= HN.
Qed.

End KernelFacts.

(** ** Call arguments and weights *)

Section MiscFacts.
Variable F : realFieldType.

Lemma dict_get_notin (V : Type) (d : dict V) (key : string) :
  key \notin unzip1 d -> dict_get d key = Raise (KeyError key).
Proof.
elim: d => [|[k v] d IH] //=; rewrite inE negb_or eq_sym => /andP[/negbTE -> H].
exact: IH.
Qed.

Lemma dict_get_in (V : Type) (d : dict V) (key : string) :
  key \in unzip1 d -> exists v, dict_get d key = Ok v.
Proof.
elim: d => [|[k v] d IH] //=; rewrite inE eq_sym.
by case: eqP => [_ _|_ /= /IH //]; exists v.
Qed.

(** X15.  [unpack_spatialargs] on a dict that lacks some of the keys ['x'],
    ['y'], ['band'], ['kern']: it raises the [KeyError] of the first of
    them, in this order, that the dict does not hold, whatever else the
    dict holds. *)
Theorem unpack_spatialargs_missing_key (d : dict (pyval F)) (key : string)
    (rest : seq string) :
  [seq key <- shac_keys | key \notin unzip1 d] = key :: rest ->
  unpack_spatialargs (Some d) = Raise (KeyError key).
Proof.
rewrite /unpack_spatialargs /shac_keys /=.
case Hx: ("x" \in unzip1 d) => /=; last first.
  by case=> <- _; rewrite dict_get_notin ?Hx.
have [vx ->] := dict_get_in Hx.
case Hy: ("y" \in unzip1 d) => /=; last first.
  by case=> <- _; rewrite /= dict_get_notin ?Hy.
have [vy ->] := dict_get_in Hy.
case Hb: ("band" \in unzip1 d) => /=; last first.
  by case=> <- _; rewrite /= dict_get_notin ?Hb.
have [vb ->] := dict_get_in Hb.
case Hke: ("kern" \in unzip1 d) => //=.
by case=> <- _; rewrite /= dict_get_notin ?Hke.
Qed.

End MiscFacts.

(** ** An IV call on [table_yxz], step by step *)

Lemma build_sample_yxz (m : string) :
  (build_sample ratlib IVReg (call_iv m) heap_yxz).1 = Ok (worker_iv m).
Proof. reflexivity. Qed.

Ltac gram :=
  apply/matrixP => i j;
  rewrite !mxE !big_ord_recl big_ord0 !ord1 !mxE /=;
  rewrite ?(mul0r, mulr0, mulr1, addr0, add0r) ?mulr1n //.

Lemma zz3 : z3^T *m z3 = 1%:M.
Proof. by gram. Qed.

Lemma zx3 : z3^T *m x3 = 1%:M.
Proof. by gram. Qed.

Lemma xz3 : x3^T *m z3 = 1%:M.
Proof. by gram. Qed.

Lemma xx3 : x3^T *m x3 = 2%:R%:M.
Proof. by gram. Qed.

Lemma yy3 : y3^T *m y3 = 1%:M.
Proof. by gram. Qed.

Lemma yz3 : y3^T *m z3 = 0.
Proof. by gram. Qed.

Lemma yx3 : y3^T *m x3 = 0.
Proof. by gram. Qed.

Lemma xy3 : x3^T *m y3 = 0.
Proof. by gram. Qed.

Lemma zy3 : z3^T *m y3 = 0.
Proof. by gram. Qed.

#[local] Arguments fitguts : simpl never.
#[local] Arguments estimate : simpl never.

Section OneColumnFacts.
Variable F : realFieldType.

Lemma row_mx_thin1 n (X : 'M[F]_(n, 1)) (W : 'M[F]_(n, 0)) : row_mx X W = X.
Proof.
apply/matrixP => i j; rewrite mxE; case: splitP => [j' _|[j' //]].
by rewrite !ord1.
Qed.

Lemma hcat_thin1 n (X : 'M[F]_(n, 1)) (W : 'M[F]_(n, 0)) :
  hcat (Arr X) (Arr W) = Ok (Arr X).
Proof. by rewrite hcatE row_mx_thin1. Qed.

Lemma nth_col0 n (X : 'M[F]_(n, 1)) (cols : seq string) :
  nth_col (DF cols (Arr X)) 0 = Vec X.
Proof.
rewrite /nth_col /= insubT //=; congr Vec.
by apply/matrixP => i j; rewrite mxE !ord1.
Qed.

Lemma setitem_col1 n (X v : 'M[F]_(n, 1)) (l : string) :
  setitem (DF [:: l] (Arr X)) l (Vec v) = Ok (DF [:: l] (Arr v)).
Proof.
rewrite /setitem /=; case: (n =P n) => // e.
rewrite (eq_axiomK e) castmx_id mem_head; congr (Ok (DF _ (Arr _))).
by apply/matrixP => i j; rewrite mxE !ord1 /= eqxx.
Qed.

(** The first stage with one endogenous regressor, one instrument and no
    exogenous regressor: the regressor is replaced by its projection on
    the instrument. *)
Lemma first_stage_1 n (X Z : 'M[F]_(n, 1)) (W : 'M[F]_(n, 0))
    (xl zl : string) :
  Z^T *m Z \in unitmx ->
  _first_stage (DF [:: xl] (Arr X)) (DF [::] (Arr W)) (DF [:: zl] (Arr Z))
  = Ok (DF [:: xl] (Arr (Z *m ols_beta Z X)), DF [:: xl] (Arr X)).
Proof.
move=> U; rewrite /_first_stage /concat1 /= !hcat_thin1 /=.
rewrite /x_column /= eqxx /= nth_col0 (fitgutsE X [:: zl] U) /=.
by rewrite dotvE /= (setitem_col1 X _ xl).
Qed.

Lemma to_seq1 (v : 'cV[F]_1) : to_seq (Vec v) = [:: v 0 0].
Proof.
rewrite /to_seq /= enum_ordSl.
have -> : enum 'I_0 = [::] by apply: size0nil; rewrite size_enum_ord.
by [].
Qed.

Lemma entry00 (A : 'M[F]_1) : entry (Arr A) 0 0 = A 0 0.
Proof. by rewrite /entry /= !insubT //= !ord1. Qed.

End OneColumnFacts.

Lemma z3_gram_unit : z3^T *m z3 \in unitmx.
Proof. by rewrite zz3 unitmx1. Qed.

Lemma z3_fitted : z3 *m ols_beta z3 x3 = z3.
Proof. by rewrite /ols_beta zz3 zx3 invmx1 mulmx1 mulmx1. Qed.

Lemma beta_2sls3 : ols_beta z3 y3 = 0.
Proof. by rewrite /ols_beta zy3 mulmx0. Qed.

Lemma estimate_2sls_worker_iv :
  estimate ratlib (worker_iv "2sls") = Ok worker_2sls_fitted.
Proof.
rewrite /estimate /IVReg_estimate /=.
rewrite (first_stage_1 x3 empty30 "x" "z" z3_gram_unit) /= z3_fitted.
rewrite (fitgutsE y3 [:: "x"] z3_gram_unit) /=.
by rewrite beta_2sls3 zz3 invmx1.
Qed.

(** The whole fit returns on [worker_iv "2sls"]: the residual is the
    outcome, the VCE is positive, and so is the standard error that
    divides the coefficient. *)
Lemma fit_2sls_worker_iv : is_ok (fit ratlib (worker_iv "2sls")).
Proof.
rewrite /fit estimate_2sls_worker_iv /=.
rewrite /get_vce /= /residuals /= dotvE /= vsubE /= mulmx0 subr0.
rewrite /raw_vce /= /vce_homosk vdotE /= yy3 mxE /=.
rewrite /symmetrize /scale /= trE addE /= scalemx1 tr_scalar_mx -raddfD /=.
rewrite scale_scalar_mx /_wrapSigma /=.
rewrite /set_dof /_set_NK /IVReg_set_NK /RegBase_set_NK /=.
rewrite /inference /= /scale /= scale_scalar_mx entry00 mxE eqxx mulr1n.
set x := (3 / _ * _).
have Hx : 0 < x.
  by rewrite mulr_gt0 ?divr_gt0 ?mulr_gt0 ?addr_gt0 ?invr_gt0 ?ltr0n ?ltr0z.
clearbody x.
rewrite /fsqrt ltNge (ltW Hx) /= to_seq1 /= /fdiv (gt_eqF Hx) /=.
by [].
Qed.

(** C8 at [ivreg(df, 'y', 'x', 'z', [], iv_method='2sls')] on
    [table_yxz]: the call returns, and its results have no [kappa]. *)
Lemma ivreg_2sls_has_no_kappa_witness :
  exists r h',
    [/\ ivreg ratlib (call_iv "2sls") heap_yxz = (Ok r, h'),
        res_iv_method r = Some "2sls" & kappa r = None].
Proof.
have [r [h1 Hi]] :=
  ivreg_returns (build_sample_yxz "2sls") fit_2sls_worker_iv.
exists r, h1.
have [Hm Hk] := @ivreg_2sls_has_no_kappa rat ratlib (call_iv "2sls")
                  heap_yxz h1 r erefl Hi.
split; [exact Hi | exact Hm | exact Hk].
Defined.

(** The same call under ['liml']. *)

Lemma YY3 : Y3^T *m Y3 = block_mx 1%:M 0 0 2%:R%:M.
Proof. by rewrite /Y3 tr_row_mx mul_col_row yy3 yx3 xy3 xx3. Qed.

Lemma YZ3 : Y3^T *m z3 = col_mx 0 1%:M.
Proof. by rewrite /Y3 tr_row_mx mul_col_mx yz3 xz3. Qed.

(** [Y'Y - Y'Z (Z'Z)^-1 Z'Y] is the identity on this table, so that its
    square root and the inverse of that are the identity too. *)
Lemma D3 :
  Y3^T *m Y3 - Y3^T *m z3 *m invmx (z3^T *m z3) *m (Y3^T *m z3)^T = 1%:M.
Proof.
rewrite YY3 YZ3 zz3 invmx1 mulmx1 tr_col_mx mul_col_row.
rewrite !(mul0mx, mulmx0, trmx0) tr_scalar_mx mulmx1.
rewrite opp_block_mx add_block_mx !(oppr0, addr0, subr0).
rewrite -[2%:R%:M - 1%:M]/(2%:R%:M + (- 1%:M)) -raddfB /=.
by rewrite (scalar_mx_block 1 1); congr (block_mx _ _ _ _%:M); apply/eqP.
Qed.

Lemma liml_kappa_worker_iv :
  exists k,
    _liml_kappa ratlib (YSeries (Vec y3)) (DF [:: "x"] (Arr x3))
                (DF [::] (Arr empty30)) (DF [:: "z"] (Arr z3))
    = Ok (k, Arr (invmx (z3^T *m z3))).
Proof.
eexists; rewrite /_liml_kappa /as_column /= hcatE /= -/Y3 !trE !dotE /=.
rewrite la_invE z3_gram_unit /= !dotE /= trE dotE /= subE /= D3.
rewrite la_invE unitmx1 /= invmx1.
rewrite /df_empty /= dotE /= dotE /=.
reflexivity.
Qed.

#[local] Arguments _liml_kappa : simpl never.



(** ** An OLS call on a constant, step by step *)



Lemma oy3 : ones31^T *m y3 = 1%:M.
Proof. by gram. Qed.




#[local] Arguments get_vce : simpl never.



Lemma ivreg_has_no_r2_witness :
  exists r h',
    [/\ ivreg ratlib (call_iv "2sls") heap_yxz = (Ok r, h'),
        Results_r2 r = Ok None & Results_r2_a r = Ok None].
Proof.
have [r [h1 Hi]] :=
  ivreg_returns (build_sample_yxz "2sls") fit_2sls_worker_iv.
exists r, h1.
have [H1 H2] := @ivreg_has_no_r2 rat ratlib (call_iv "2sls") heap_yxz h1 r Hi.
split; [exact Hi | exact H1 | exact H2].
Defined.

(** ** LIML against 2SLS and OLS *)

#[local] Arguments sst_of : simpl never.

Section ShapeFacts.
Variable F : realFieldType.

Lemma dotv_Ok n k (A : 'M[F]_(n, k)) (v u : vector F) :
  dotv (Arr A) v = Ok u ->
  exists v' : 'cV[F]_k, v = Vec v' /\ u = Vec (A *m v').
Proof.
case: v => m v; rewrite /dotv /=; case: eqP => // e [<-].
by subst m; exists v; rewrite castmx_id.
Qed.

Lemma add_scale0 n k (A : 'M[F]_(n, k)) (B C : ndarray F) :
  add (Arr A) (scale 0 B) = Ok C -> C = Arr A.
Proof.
case: B => n' k' B; rewrite /add /scale /=.
case: eqP => // e1; case: eqP => // e2 [<-].
by subst n' k'; rewrite castmx_id scale0r addr0.
Qed.

Lemma vadd_vscale0 n (u : 'cV[F]_n) (w z : vector F) :
  vadd (Vec u) (vscale 0 w) = Ok z -> z = Vec u.
Proof.
case: w => m w; rewrite /vadd /vscale /=; case: eqP => // e [<-].
by subst m; rewrite castmx_id scale0r addr0.
Qed.

End ShapeFacts.

Section LimlFacts.
Variable F : realFieldType.
Variable lib : NumLib F.




End LimlFacts.

Section Kappa0.
Variable F : realFieldType.
Variable lib : NumLib F.

(** X3.  LIML with the debug override [kappa = 0] and the default VCE: the
    coefficients and the [(X'X)^-1] it stores are those of [fitguts] on
    the outcome and the regressors [x] and [w] side by side, that is,
    OLS. *)
Theorem liml_kappa0_is_ols (self self1 : worker F) (r : Results F) :
  iv_method (kw (ini self)) = "liml" ->
  _kappa_debug (kw (ini self)) = Some 0 ->
  self_vce_type (ini self) = None ->
  IVReg_estimate lib self = Ok self1 -> self_results self1 = Some r ->
  exists w Xtrue,
    [/\ self_w self = Some w, concat1 (self_x self) w = Ok Xtrue,
        self_Xtrue self1 = Some Xtrue, kappa r = Some 0
      & fitguts (self_y self) Xtrue = Ok (beta r, xpx_inv r)].
Proof.
move=> Hm Hk Hv; rewrite /IVReg_estimate Hm Hk Hv /=.
case Ew: (self_w self) => [w|] //=; case Ez: (self_z self) => [z|] //=.
rewrite /_liml.
case EZ: (concat1 z w) => [Z|] //=.
case Ek: (_liml_kappa _ _ _ _ _) => [[kappa_eig ZZi]|] //=.
case EX: (concat1 _ _) => [[cols [n k M]]|] //=.
case Ey: (self_y self) => [c|yv] //=.
rewrite trE dotE /=.
case: (dot _ (values Z)) => //= XZ.
case EXy: (dotv _ yv) => [Xy|] //=.
have [v [Hyv HXy]] := dotv_Ok EXy.
case: (dotv (tr (values Z)) yv) => //= Zy.
case: (dot XZ ZZi) => //= XZZ.
case: (dot XZZ (tr XZ)) => //= XZZX.
rewrite subr0 [scale 1 _]/scale /= scale1r.
case EM: (add _ _) => [Mx|] //=.
rewrite (add_scale0 EM) la_invE.
case U: (M^T *m M \in unitmx) => //=.
case: (dotv XZZ Zy) => //= XZZy.
rewrite HXy [vscale 1 _]/vscale /= scale1r.
case Exy: (vadd _ _) => [xpy|] //=.
rewrite (vadd_vscale0 Exy) dotvE /=.
case: (sst_of _) => //= s [<-] /= [<-] /=.
exists w, (DF cols (Arr M)); split=> //.
by rewrite Hyv (fitgutsE v cols U).
Qed.

End Kappa0.

(** ** The further statements on concrete inputs *)


Lemma estimate_worker_k0 :
  exists self1 r, IVReg_estimate ratlib worker_k0 = Ok self1
                  /\ self_results self1 = Some r.
Proof.
have [k Ek] := liml_kappa_worker_iv.
do 2!eexists; rewrite /IVReg_estimate /= /_liml /concat1 /= !hcat_thin1 /=.
rewrite Ek /= !trE !dotE /= !dotvE /=.
rewrite dotE /= trE dotE /= addE /= subr0 scale1r scale0r addr0 xx3.
have U : (2%:R%:M : 'M[rat]_1) \in unitmx.
  by rewrite unitmxE det_scalar1 unitfE pnatr_eq0.
rewrite la_invE U /= dotvE /= vaddE /= dotvE /=.
by split; reflexivity.
Qed.

Lemma liml_kappa0_is_ols_witness :
  exists self1 r Xtrue,
    [/\ IVReg_estimate ratlib worker_k0 = Ok self1,
        self_results self1 = Some r, kappa r = Some 0
      & fitguts (self_y worker_k0) Xtrue = Ok (beta r, xpx_inv r)].
Proof.
have [self1 [r [E Hr]]] := estimate_worker_k0.
have [w [Xt [Hw Hc _ Hk Hf]]] :=
  @liml_kappa0_is_ols rat ratlib worker_k0 self1 r erefl erefl erefl E Hr.
exists self1, r, Xt.
split; [exact E | exact Hr | exact Hk | exact Hf].
Defined.


Lemma set_dof_zero_division_witness :
  set_dof worker_sat = Raise ZeroDivisionError.
Proof.
exact (@set_dof_zero_division rat worker_sat 1 1
         (set_nocons results_yx_vce false) erefl
         (or_introl (conj isT erefl))).
Defined.

Lemma estimate_empty_sample_witness :
  estimate ratlib worker_empty = Raise LinAlgError.
Proof.
exact (@estimate_empty_sample rat ratlib worker_empty 0 0 0 [:: "x"]
         erefl erefl erefl).
Defined.

Lemma sample_rows_are_complete_witness :
  exists names cs m,
    [/\ varlist [:: Col "y"; @Cols [:: "x"]] = Ok names,
        getitem_cols table_yx names = Ok cs,
        1%N = size heap_yx
        /\ (flag_sample 0 [:: Col "y"; @Cols [:: "x"]] heap_yx).2
           = rcons heap_yx (OMask rat m),
        size m = rows table_yx
      & all (fun c => all isSome (mask m c)) cs].
Proof.
exact (@sample_rows_are_complete rat heap_yx
         (flag_sample 0 [:: Col "y"; @Cols [:: "x"]] heap_yx).2 0%N 1%N
         [:: Col "y"; @Cols [:: "x"]] table_yx erefl erefl).
Defined.

Lemma nosingles_leaves_no_singleton_witness :
  let m := hbind (flag_nonsingletons 0 "g" 1) (iand 1) in
  exists smp',
    [/\ (m heap_g).1 = Ok tt,
        nth (OMask rat [::]) (m heap_g).2 1 = OMask rat smp',
        size smp' = 3%N,
        forall i, nth false smp' i -> nth false [:: true; true; true] i
      & forall i, nth false smp' i ->
          (1 < count_mem (nth None keys_g i) (mask smp' keys_g))%N].
Proof.
exact (@nosingles_leaves_no_singleton rat heap_g 0%N 1%N "g" table_g
         [:: true; true; true] keys_g isT erefl erefl erefl erefl).
Defined.


Lemma cluster_of_singletons_is_robust_witness :
  vce_cluster (Arr (1%:M : 'M[rat]_1)) (Vec ones21)
              (DF [:: "x"] (Arr ones21)) (Some fe_county)
  = vce_robust (Arr (1%:M : 'M[rat]_1)) (Vec ones21)
               (DF [:: "x"] (Arr ones21)).
Proof.
exact (@cluster_of_singletons_is_robust rat fe_county 1 ones21 ones21
         (Arr (1%:M : 'M[rat]_1)) [:: "x"] isT isT).
Defined.

(** [unpack_spatialargs({'x': 'lon', 'kern': 'unif'})] *)
Lemma unpack_spatialargs_missing_key_witness :
  unpack_spatialargs (Some [:: ("x", PStr rat "lon"); ("kern", PStr rat "unif")])
  = Raise (KeyError "y").
Proof.
exact (@unpack_spatialargs_missing_key rat
         [:: ("x", PStr rat "lon"); ("kern", PStr rat "unif")] "y"
         [:: "band"] erefl).
Defined.


Lemma shac_unknown_kernel_witness :
  _shac_kernels (Some (PStr rat "gauss")) None = None
  /\ _shac_weights ratlib (Arr ones21) (Some cl_state) (Some cl_state)
                   (Some (PStr rat "gauss")) None
     = Raise TypeError.
Proof.
exact (@shac_unknown_kernel rat ratlib (Arr ones21) (Some cl_state)
         (Some cl_state) (Some (PStr rat "gauss")) None [:: 1; 1] [:: 1; 1]
         isT erefl erefl erefl erefl isT).
Defined.
